(** * A chat application in two tiers: persistence API and chat UI

    Shallow embedding of [db-api/app/{models,schemas,crud,main}.py] and of
    [chat-ui/app/main.py], and the properties of the specification that
    are stated about them.

    Conventions of the embedding.
    - The relational store is a pair of tables kept as lists in insertion
      order; a query without [ORDER BY] scans a table in that order and
      [.first()] takes the first row of the scan.
    - [uuid.uuid4] is a supply of identifiers that never repeats: the store
      carries the next identifier to hand out.
    - Python exceptions are values of [exn]; a function that may raise and
      that touches the store is a computation of the monad [SE].
    - One HTTP request is one call of the handler of its route.  Bodies
      and headers reach the handler as the caller wrote them; chat
      identifiers range over well-formed UUIDs, which reach the routes
      unchanged when pasted into a path.  A username pasted into a path is
      routed as [http.route_pasted_username] says.  Requests are served
      one after the other.
    - The completion endpoint is a function from the history it is sent to
      what it does with the request: it answers, or the client times out
      after the bound it was called with. *)

From stdpp Require Import base decidable option list strings gmap.

Local Open Scope string_scope.
Local Open Scope list_scope.

(** ** Exceptions and the state-and-exception monad *)

Inductive exn :=
  | HTTPException (status_code : nat) (detail : string)
  | IntegrityError
  | JSONDecodeError
  | KeyError (key : string)
  | ResponseValidationError
  | IndexError
  | TimeoutException.

Inductive outcome (A : Type) :=
  | Return (a : A)
  | Raise (e : exn).
Arguments Return {A} a.
Arguments Raise {A} e.

(** A computation over a state [S]: it returns or raises, and in both cases
    leaves a state behind (what was committed before an exception stays). *)
Definition SE (S A : Type) : Type := S → outcome A * S.

#[export] Instance SE_ret {S} : MRet (SE S) := λ A a s, (Return a, s).
#[export] Instance SE_bind {S} : MBind (SE S) := λ A B k m s,
  match m s with
  | (Return a, s') => k a s'
  | (Raise e, s') => (Raise e, s')
  end.

Definition raise {S A} (e : exn) : SE S A := λ s, (Raise e, s).
Definition gets {S A} (f : S → A) : SE S A := λ s, (Return (f s), s).

(** [try: body / except <caught>: handler] *)
Definition try_except {S A}
    (body : SE S A) (caught : exn → bool) (handler : SE S A) : SE S A :=
  λ s, match body s with
       | (Raise e, s') => if caught e then handler s' else (Raise e, s')
       | r => r
       end.

(** [for x in xs: body x] *)
Fixpoint for_each {S A} (xs : list A) (body : A → SE S unit) : SE S unit :=
  match xs with
  | [] => mret ()
  | x :: xs' => body x ;; for_each xs' body
  end.

(** A list comprehension whose element expression may raise. *)
Fixpoint comprehension {A B} (f : A → exn + B) (xs : list A) : exn + list B :=
  match xs with
  | [] => inr []
  | x :: xs' =>
      match f x with
      | inl e => inl e
      | inr y =>
          match comprehension f xs' with
          | inl e => inl e
          | inr ys => inr (y :: ys)
          end
      end
  end.

(** ** db-api/app/models.py: the two tables *)

Definition UUID := nat.

Module models.

(** Table [chats]. *)
Record Chat := mkChat {
  chat_id : UUID;
  chat_username : string;
  chat_session_id : string
}.

(** Table [messages]; [message_owner_id] is the foreign key to
    [chats.id]. *)
Record Message := mkMessage {
  message_id : UUID;
  message_content : string;
  message_role : string;
  message_session_id : string;
  message_owner_id : UUID
}.

#[export] Instance Chat_eq_dec : EqDecision Chat.
Proof. solve_decision. Defined.
#[export] Instance Message_eq_dec : EqDecision Message.
Proof. solve_decision. Defined.

End models.
Export models.

(** The store behind [SessionLocal]. *)
Record Db := mkDb {
  chats : list Chat;
  messages : list Message;
  next_uuid : UUID
}.

Definition empty_db : Db := mkDb [] [] 0.

(** The relationship [Chat.messages]: the rows of [messages] whose
    [owner_id] is the chat. *)
Definition Chat_messages (db : Db) (c : Chat) : list Message :=
  filter (λ m, message_owner_id m = chat_id c) (messages db).

(** ** db-api/app/schemas.py *)

Module schemas.

Record MessageCreate := mkMessageCreate {
  content : string;
  role : string;
  session_id : string
}.

Record ChatCreate := mkChatCreate {
  username : string;
  create_messages : list MessageCreate;
  create_session_id : string
}.

(** [schemas.Message] has the fields of a row of [messages]; the
    response model reads them from the ORM object. *)
Definition Message := models.Message.

(** [schemas.Chat]: the chat row with the messages of its relationship. *)
Record Chat := mkChat {
  id : UUID;
  chat_username : string;
  chat_session_id : string;
  chat_messages : list Message
}.

#[export] Instance MessageCreate_eq_dec : EqDecision MessageCreate.
Proof. solve_decision. Defined.
#[export] Instance ChatCreate_eq_dec : EqDecision ChatCreate.
Proof. solve_decision. Defined.
#[export] Instance Chat_eq_dec : EqDecision Chat.
Proof. solve_decision. Defined.

(** [from_attributes = True]: the response model is filled from the ORM
    object, which loads the relationship from the store. *)
Definition Chat_from_attributes (db : Db) (c : models.Chat) : Chat :=
  {| id := models.chat_id c;
     chat_username := models.chat_username c;
     chat_session_id := models.chat_session_id c;
     chat_messages := Chat_messages db c |}.

End schemas.

(** ** db-api/app/crud.py *)

Module crud.
Import schemas.

(** [db.add(row); db.commit(); db.refresh(row)] for a chat: the primary
    key is drawn from [uuid4], the row goes to the end of the table. *)
Definition add_commit_refresh_chat (username session_id : string)
  : SE Db models.Chat :=
  λ db,
    let row := models.mkChat (next_uuid db) username session_id in
    (Return row,
     {| chats := chats db ++ [row];
        messages := messages db;
        next_uuid := S (next_uuid db) |}).

(** The same for a message.  The commit is refused when [owner_id] names
    no row of [chats] (the [ForeignKey("chats.id")] of the model). *)
Definition add_commit_refresh_message
    (content role session_id : string) (owner_id : UUID)
  : SE Db models.Message :=
  λ db,
    if decide (owner_id ∈ models.chat_id <$> chats db) then
      let row :=
        models.mkMessage (next_uuid db) content role session_id owner_id in
      (Return row,
       {| chats := chats db;
          messages := messages db ++ [row];
          next_uuid := S (next_uuid db) |})
    else (Raise IntegrityError, db).

Definition get_chat (db : Db) (chat_id : UUID) (session_id : string)
  : option models.Chat :=
  head (filter (λ c, models.chat_id c = chat_id
                     ∧ models.chat_session_id c = session_id) (chats db)).

Definition get_chat_by_username (db : Db) (username session_id : string)
  : option models.Chat :=
  head (filter (λ c, models.chat_username c = username
                     ∧ models.chat_session_id c = session_id) (chats db)).

Definition create_chat_message (chat_id : UUID) (chat_message : MessageCreate)
  : SE Db models.Message :=
  add_commit_refresh_message
    (content chat_message) (role chat_message) (session_id chat_message)
    chat_id.

Definition create_chat (chat : ChatCreate) : SE Db models.Chat :=
  db_chat ← gets (λ db, get_chat_by_username db (username chat)
                          (create_session_id chat));
  match db_chat with
  | Some _ =>
      raise (HTTPException 400
               ("Chat with username " +:+ username chat +:+ " already exists"))
  | None =>
      db_chat ← add_commit_refresh_chat (username chat)
                  (create_session_id chat);
      for_each (create_messages chat)
        (λ message,
           create_chat_message (models.chat_id db_chat) message ;; mret ()) ;;
      mret db_chat
  end.

End crud.

(** ** The HTTP messages exchanged with the persistence API *)

Module http.

(** The JSON documents that occur as response bodies. *)
Inductive Json :=
  | JDetail (detail : string)
  | JChat (c : schemas.Chat)
  | JMessage (m : schemas.Message).

(** [body = None]: the body is not a JSON document (the plain-text page
    of an unhandled server error). *)
Record Response := mkResponse {
  status_code : nat;
  body : option Json
}.

Inductive Request :=
  | POST_chats (json : schemas.ChatCreate)
  | GET_chats_chat_id (chat_id : UUID) (headers : gmap string string)
  | GET_chats_username (username : string) (headers : gmap string string)
  | POST_chats_message (chat_id : UUID) (json : schemas.MessageCreate).

(** *** A username pasted into the path [/chats/username/<username>]

    The UI builds the address of the fetch by username by pasting the
    username into the path as it is.  Two kinds of usernames are followed
    here: those made of letters, digits, [-] and [_] only, which are one
    path segment and reach the by-username route unchanged; and those
    made of two or more such segments separated by [/], whose path
    matches no route.  What the client and the server make of any other
    username (a query, a fragment, percent escapes, dot segments, ...) is
    left to a parameter of the UI. *)

Definition unreserved (a : Ascii.ascii) : bool :=
  let n := Ascii.nat_of_ascii a in
  (((48 <=? n) && (n <=? 57)) || ((65 <=? n) && (n <=? 90))
   || ((97 <=? n) && (n <=? 122)) || (n =? 45) || (n =? 95))%nat.

Fixpoint all_unreserved (s : string) : bool :=
  match s with
  | EmptyString => true
  | String a s' => unreserved a && all_unreserved s'
  end.

(** A non-empty word of letters, digits, [-] and [_]. *)
Definition path_safe (s : string) : bool :=
  match s with
  | EmptyString => false
  | _ => all_unreserved s
  end.

(** The segments of a path: [split_slash "a/b" = ["a"; "b"]]. *)
Fixpoint split_slash (s : string) : list string :=
  match s with
  | EmptyString => [EmptyString]
  | String a s' =>
      if (Ascii.nat_of_ascii a =? 47)%nat (* the slash *)
      then EmptyString :: split_slash s'
      else match split_slash s' with
           | [] => [String a EmptyString]
           | seg :: segs => String a seg :: segs
           end
  end.

Inductive Routing :=
  | Route_username (username : string)
  | Not_found
  | Elsewhere.

(** Where a GET of [/chats/username/<pasted>] goes.  The routes of the
    API with a GET method are [/chats/{chat_id}] and
    [/chats/username/{username}], and a path parameter matches one
    segment. *)
Definition route_pasted_username (pasted : string) : Routing :=
  if path_safe pasted then Route_username pasted
  else
    let segments := split_slash pasted in
    if (2 <=? length segments)%nat && forallb path_safe segments
    then Not_found
    else Elsewhere.

(** The headers [{"X-Session-ID": session_id}] of a request. *)
Definition X_Session_ID (session_id : string) : gmap string string :=
  {["X-Session-ID" := session_id]}.

(** What the framework answers for the outcome of a handler: the value
    under status 200, the status and [detail] of an [HTTPException], and
    for any other exception an internal server error, whose body is plain
    text. *)
Definition respond {A} (to_json : A → Json) (o : outcome A) : Response :=
  match o with
  | Return a => mkResponse 200 (Some (to_json a))
  | Raise (HTTPException status detail) =>
      mkResponse status (Some (JDetail detail))
  | Raise _ => mkResponse 500 None
  end.

End http.

(** ** db-api/app/main.py *)

Module db_api.
Import schemas http.

(** Python's [not session_id] for the result of [headers.get]. *)
Definition not_ (session_id : option string) : bool :=
  match session_id with
  | None => true
  | Some s => bool_decide (s = "")
  end.

Definition create_chat (chat : ChatCreate) : SE Db schemas.Chat :=
  db_chat ← crud.create_chat chat;
  gets (λ db, Chat_from_attributes db db_chat).

Definition get_chat_by_id (headers : gmap string string) (chat_id : UUID)
  : SE Db (option schemas.Chat) :=
  let session_id := headers !! "X-Session-ID" in
  if not_ session_id then
    raise (HTTPException 400 "Session ID is required")
  else
    gets (λ db, Chat_from_attributes db
                  <$> crud.get_chat db chat_id (default "" session_id)).

Definition get_chat_by_username (headers : gmap string string)
    (username : string) : SE Db (option schemas.Chat) :=
  let session_id := headers !! "X-Session-ID" in
  if not_ session_id then
    raise (HTTPException 400 "Session ID is required")
  else
    gets (λ db, Chat_from_attributes db
                  <$> crud.get_chat_by_username db username
                        (default "" session_id)).

Definition create_chat_message (chat_id : UUID) (message : MessageCreate)
  : SE Db schemas.Message :=
  crud.create_chat_message chat_id message.

(** [response_model=schemas.Chat] on the two GET routes: a handler that
    returns [None] fails the validation of its response. *)
Definition response_model_Chat (c : option schemas.Chat)
  : SE Db schemas.Chat :=
  match c with
  | Some c => mret c
  | None => raise ResponseValidationError
  end.

(** One request served: the handler runs on the store and the framework
    answers for its outcome. *)
Definition serve {A} (to_json : A → Json) (handler : SE Db A)
  : Db → Response * Db :=
  λ db, let '(o, db') := handler db in (respond to_json o, db').

(** The routes of the application. *)
Definition app (r : Request) : Db → Response * Db :=
  match r with
  | POST_chats chat => serve JChat (create_chat chat)
  | GET_chats_chat_id chat_id headers =>
      serve JChat (get_chat_by_id headers chat_id ≫= response_model_Chat)
  | GET_chats_username username headers =>
      serve JChat
        (get_chat_by_username headers username ≫= response_model_Chat)
  | POST_chats_message chat_id message =>
      serve JMessage (create_chat_message chat_id message)
  end.

End db_api.

(** ** chat-ui/app/main.py *)

Module chat_ui.
Import schemas http.

(** The fields of [Settings] that the handlers read; the two base URLs
    and the session key only say where requests go and how the cookie is
    signed. *)
Record Settings := mkSettings {
  user_role : string;
  assistant_role : string;
  system_role : string;
  system_message : string;
  opening_message : string
}.

(** The defaults of the [Settings] class. *)
Definition default_settings : Settings :=
  {| user_role := "user";
     assistant_role := "assistant";
     system_role := "system";
     system_message := "You are a helpful AI assistant.";
     opening_message :=
       "Hi, how can I help you? I might take about 30 seconds for lengthy answers!" |}.

(** What the completion endpoint does with one request: it lets the
    client time out, or it answers with the message contents of its
    [choices]. *)
Inductive Completion :=
  | TimedOut
  | Choices (contents : list string).

(** The outbound calls of the UI, as they leave it. *)
Inductive Call :=
  | DbApiCall (r : Request)
  | DbApiGet (path : string) (headers : gmap string string)
  | LmApiCall (messages : list schemas.Message) (timeout : nat).

(** What a UI handler acts on: the store of the persistence API and the
    record of the calls made so far. *)
Record World := mkWorld {
  db : Db;
  calls : list Call
}.

Record DisplayMessage := mkDisplayMessage {
  display_content : string;
  display_role : string
}.

Inductive Url :=
  | url_path_for_get_chat_page (chat_id : UUID).

Inductive UiResponse :=
  | TemplateResponse_home
  | TemplateResponse_chat (messages : list DisplayMessage) (chat_id : UUID)
  | RedirectResponse (url : Url) (status_code : nat).

Definition HTTP_302_FOUND : nat := 302.

(** [request.session.get("session_id")], with a new identifier stored in
    the session when there is none; [uuid4_str] is [str(uuid.uuid4())]. *)
Definition get_session_id (session : gmap string string) (uuid4_str : string)
  : string * gmap string string :=
  match session !! "session_id" with
  | Some session_id =>
      if bool_decide (session_id = "") then
        (uuid4_str, <["session_id" := uuid4_str]> session)
      else (session_id, session)
  | None => (uuid4_str, <["session_id" := uuid4_str]> session)
  end.

(** [httpx.post] and [httpx.get] on the persistence API. *)
Definition httpx_db_api (r : Request) : SE World Response :=
  λ w, let '(response, db') := db_api.app r (db w) in
       (Return response,
        {| db := db'; calls := calls w ++ [DbApiCall r] |}).

(** [response.json()] *)
Definition json (response : Response) : SE World Json :=
  match body response with
  | Some j => mret j
  | None => raise JSONDecodeError
  end.

(** Subscripts on a decoded document: [chat["id"]], [chat["username"]],
    [chat["messages"]]. *)
Definition subscript {A} (key : string) (field : schemas.Chat → A)
    (chat : Json) : exn + A :=
  match chat with
  | JChat c => inr (field c)
  | JDetail _ | JMessage _ => inl (KeyError key)
  end.

Definition lift {A} (r : exn + A) : SE World A :=
  match r with
  | inl e => raise e
  | inr a => mret a
  end.

Definition get_homepage : SE World UiResponse :=
  mret TemplateResponse_home.

Section handlers.
Variable settings : Settings.
(** The completion endpoint behind [lm_api_url]. *)
Variable lm_api : list schemas.Message → Completion.
(** What [httpx.get] gives for the fetch by username when the pasted
    username is routed [Elsewhere]: a response of some GET route, or an
    exception of the client; the store is not touched by a GET. *)
Variable other_paths :
  string → gmap string string → Db → outcome Response.

(** [httpx.get(f"{db_api_url}/chats/username/{username}", headers=...)] *)
Definition httpx_get_chat_by_username (username session_id : string)
  : SE World Response :=
  λ w,
    let headers := X_Session_ID session_id in
    let sent :=
      {| db := db w;
         calls := calls w
                  ++ [DbApiGet ("/chats/username/" +:+ username) headers] |} in
    match route_pasted_username username with
    | Route_username username' =>
        let '(response, db') :=
          db_api.app (GET_chats_username username' headers) (db w) in
        (Return response, {| db := db'; calls := calls sent |})
    | Not_found =>
        (Return (mkResponse 404 (Some (JDetail "Not Found"))), sent)
    | Elsewhere => (other_paths username headers (db w), sent)
    end.

(** The body of the request that [create_chat] posts. *)
Definition create_chat_body (username session_id : string) : ChatCreate :=
  {| username := username;
     create_session_id := session_id;
     create_messages :=
       [ {| role := system_role settings;
            content := system_message settings;
            session_id := session_id |};
         {| role := assistant_role settings;
            content := opening_message settings;
            session_id := session_id |} ] |}.

Definition create_chat (username session_id : string)
  : SE World UiResponse :=
  response ← httpx_db_api
    (POST_chats (create_chat_body username session_id));
  chat ← json response;
  chat ← (if bool_decide (status_code response = 400) then
            response ← httpx_get_chat_by_username username session_id;
            json response
          else mret chat);
  chat_id ← lift (subscript "id" id chat);
  mret (RedirectResponse (url_path_for_get_chat_page chat_id)
          HTTP_302_FOUND).

(** The dictionary [prettify]; a later key replaces an equal earlier
    one. *)
Definition prettify (username : string) : gmap string string :=
  <[system_role settings := system_role settings]>
    (<[assistant_role settings := "JorisBot"]>
       (<[user_role settings := username]> ∅)).

Definition get_chat_page (chat_id : UUID) (session_id : string)
  : SE World UiResponse :=
  response ← httpx_db_api
    (GET_chats_chat_id chat_id (http.X_Session_ID session_id));
  chat ← json response;
  username ← lift (subscript "username" schemas.chat_username chat);
  msgs ← lift (subscript "messages" chat_messages chat);
  messages ← lift
    (comprehension
       (λ msg,
          match prettify username !! message_role msg with
          | Some display =>
              inr (mkDisplayMessage (message_content msg) display)
          | None => inl (KeyError (message_role msg))
          end)
       (filter (λ msg, message_role msg ≠ system_role settings) msgs));
  mret (TemplateResponse_chat messages chat_id).

(** [httpx.post] on the completion endpoint, [.json()] included. *)
Definition httpx_lm_api (messages : list schemas.Message) (timeout : nat)
  : SE World (list string) :=
  λ w, let w' := {| db := db w;
                    calls := calls w ++ [LmApiCall messages timeout] |} in
       match lm_api messages with
       | TimedOut => (Raise TimeoutException, w')
       | Choices contents => (Return contents, w')
       end.

Definition timeout_detail : string :=
  "Request to the LM API timed out. I'm using a maximum of 5 LM API replicas to avoid blowing up costs,"
  +:+ " so perhaps it's busy. Please wait a moment and retry.".

Definition create_generation (chat_id : UUID) (prompt session_id : string)
  : SE World UiResponse :=
  response ← httpx_db_api
    (POST_chats_message chat_id
       {| role := user_role settings;
          content := prompt;
          session_id := session_id |});
  _ ← json response;
  response ← httpx_db_api
    (GET_chats_chat_id chat_id (http.X_Session_ID session_id));
  chat ← json response;
  generation ← try_except
    (msgs ← lift (subscript "messages" chat_messages chat);
     httpx_lm_api msgs 30)
    (λ e, match e with TimeoutException => true | _ => false end)
    (raise (HTTPException 503 timeout_detail));
  generation ← lift (from_option inr (inl IndexError) (head generation));
  _ ← httpx_db_api
    (POST_chats_message chat_id
       {| role := assistant_role settings;
          content := generation;
          session_id := session_id |});
  mret (RedirectResponse (url_path_for_get_chat_page chat_id)
          HTTP_302_FOUND).

End handlers.

(** The chat page in the words of the specification: the history
    without the messages of the system role, in its order, the user
    role shown as the username of the chat and the assistant role as the
    name of the bot. *)
Definition spec_display_name (settings : Settings) (username role : string)
  : string :=
  if decide (role = user_role settings) then username
  else if decide (role = assistant_role settings) then "JorisBot"
  else role.

Definition spec_rendered (settings : Settings) (username : string)
    (history : list schemas.Message) : list DisplayMessage :=
  (λ msg, mkDisplayMessage (message_content msg)
            (spec_display_name settings username (message_role msg)))
  <$> filter (λ msg, message_role msg ≠ system_role settings) history.

(** The roles that the page knows how to show. *)
Definition known_role (settings : Settings) (role : string) : Prop :=
  role = system_role settings ∨ role = user_role settings
  ∨ role = assistant_role settings.

(** One request served by the UI on the store [db] of the persistence
    API: the outcome of the handler, the store afterwards, and the
    outbound calls in the order made. *)
Definition serve {A} (handler : SE World A) (db : Db)
  : outcome A * Db * list Call :=
  let '(o, w) := handler {| db := db; calls := [] |} in
  (o, chat_ui.db w, calls w).

End chat_ui.

(** ** Stores that the API can be in *)

(** The constraints of the two tables, and what the identifier supply and
    the duplicate check of [crud.create_chat] add to them. *)
Definition db_ok (db : Db) : Prop :=
  (* identifiers handed out so far are below the next one *)
  Forall (λ c, chat_id c < next_uuid db) (chats db)
  ∧ Forall (λ m, message_id m < next_uuid db) (messages db)
  (* primary keys *)
  ∧ NoDup (chat_id <$> chats db)
  ∧ NoDup (message_id <$> messages db)
  (* foreign key of [messages.owner_id] *)
  ∧ Forall (λ m, message_owner_id m ∈ chat_id <$> chats db) (messages db)
  (* at most one chat for a username and a session *)
  ∧ NoDup ((λ c, (chat_username c, chat_session_id c)) <$> chats db).

#[export] Instance db_ok_dec db : Decision (db_ok db).
Proof. unfold db_ok. apply _. Defined.

(** The stores reached from the empty one by requests to the API, one
    after the other. *)
Inductive reachable : Db → Prop :=
  | reachable_empty : reachable empty_db
  | reachable_request db r :
      reachable db → reachable (db_api.app r db).2.

(** The rows that [crud.create_chat_message] writes for the messages
    [msgs] in turn, the first of them under the identifier [first]. *)
Fixpoint rows_of (first owner : UUID) (msgs : list schemas.MessageCreate)
  : list Message :=
  match msgs with
  | [] => []
  | m :: msgs' =>
      mkMessage first (schemas.content m) (schemas.role m)
        (schemas.session_id m) owner
      :: rows_of (S first) owner msgs'
  end.

(** Every message row carries the session of the chat row that owns it. *)
Definition session_copied (db : Db) : Prop :=
  Forall (λ m,
            Forall (λ c, chat_id c = message_owner_id m →
                         message_session_id m = chat_session_id c)
              (chats db))
    (messages db).

#[export] Instance session_copied_dec db : Decision (session_copied db).
Proof. unfold session_copied. apply _. Defined.

(** The session of a message as an invariant of the API: every request
    keeps it. *)
Definition session_copy_maintained : Prop :=
  ∀ db r, db_ok db → session_copied db → session_copied (db_api.app r db).2.

(** The store with a message row at the end of its table. *)
Definition with_message (db : Db) (row : Message) : Db :=
  {| chats := chats db;
     messages := messages db ++ [row];
     next_uuid := S (next_uuid db) |}.

(** ** Stores used as examples *)

Module examples.
Import schemas http.

Definition seed (session_id : string) : list MessageCreate :=
  [ {| role := "system"; content := "You are a helpful AI assistant.";
       session_id := session_id |};
    {| role := "assistant"; content := "Hi, how can I help you?";
       session_id := session_id |} ].

(** The store after [username] has opened a chat in [session_id]. *)
Definition opened (username session_id : string) (db : Db) : Db :=
  (db_api.app
     (POST_chats {| username := username;
                    create_session_id := session_id;
                    create_messages := seed session_id |}) db).2.

(** One chat: alice in session S1. *)
Definition one_chat_db : Db := opened "alice" "S1" empty_db.

(** Two chats of one username in two sessions. *)
Definition two_sessions_db : Db := opened "alice" "S2" one_chat_db.

(** A conversation: alice has asked, the assistant has answered. *)
Definition conversation_db : Db :=
  (db_api.app
     (POST_chats_message 0
        {| role := "assistant"; content := "Hello, alice.";
           session_id := "S1" |})
     (db_api.app
        (POST_chats_message 0
           {| role := "user"; content := "hello"; session_id := "S1" |})
        one_chat_db).2).2.

(** The same with a message of a role that the UI does not use. *)
Definition tool_db : Db :=
  (db_api.app
     (POST_chats_message 0
        {| role := "tool"; content := "42"; session_id := "S1" |})
     conversation_db).2.

Definition alice_S1 : models.Chat := models.mkChat 0 "alice" "S1".
Definition alice_S2 : models.Chat := models.mkChat 3 "alice" "S2".

End examples.

(** * Properties *)

(** ** The monad *)

Lemma bind_Return {S A B} (m : SE S A) (k : A → SE S B) s a s' :
  m s = (Return a, s') → (m ≫= k) s = k a s'.
Proof. intros H. unfold mbind, SE_bind. by rewrite H. Qed.

Lemma bind_Raise {S A B} (m : SE S A) (k : A → SE S B) s e s' :
  m s = (Raise e, s') → (m ≫= k) s = (Raise e, s').
Proof. intros H. unfold mbind, SE_bind. by rewrite H. Qed.

(** ** Queries: the first row of a filtered scan *)

Section first_row.
Context {A : Type} (P : A → Prop) `{!∀ x, Decision (P x)}.

Lemma first_row_Some l x :
  head (filter P l) = Some x → x ∈ l ∧ P x.
Proof.
  intros Hhd. apply head_Some_elem_of in Hhd.
  apply list_elem_of_filter in Hhd. tauto.
Qed.

Lemma first_row_None l :
  head (filter P l) = None ↔ ∀ x, x ∈ l → ¬ P x.
Proof.
  rewrite head_None. split.
  - intros Hnil x Hx HP. by eapply filter_nil_not_elem_of.
  - induction l as [|y l IH]; intros Hall; [done|].
    rewrite filter_cons_False; [|apply Hall; left].
    apply IH. intros x Hx. apply Hall. by right.
Qed.

(** A row that alone satisfies the filter is the one found. *)
Lemma first_row_unique l x :
  x ∈ l → P x → (∀ y, y ∈ l → P y → y = x) →
  head (filter P l) = Some x.
Proof.
  intros Hx HP Huniq.
  destruct (head (filter P l)) as [y|] eqn:Hy.
  - apply first_row_Some in Hy as [Hy1 Hy2]. f_equal. by apply Huniq.
  - rewrite first_row_None in Hy. by destruct (Hy x Hx).
Qed.

(** In a table without repeated rows it is also the only one. *)
Lemma filter_unique l x :
  NoDup l → x ∈ l → P x → (∀ y, y ∈ l → P y → y = x) →
  filter P l = [x].
Proof.
  induction l as [|z l IH]; intros Hnd Hx HP Huniq; [by inversion Hx|].
  apply NoDup_cons in Hnd as [Hz Hnd].
  destruct (decide (P z)) as [HPz|HPz].
  - assert (z = x) as -> by (apply Huniq; [left|done]).
    rewrite filter_cons_True by done. f_equal.
    apply head_None, first_row_None. intros y Hy HPy.
    apply Hz. rewrite <- (Huniq y); [done| |done]. by right.
  - apply elem_of_cons in Hx as [->|Hx]; [done|].
    rewrite filter_cons_False by done.
    apply IH; [done..|]. intros y Hy. apply Huniq. by right.
Qed.

Lemma filter_all l : Forall P l → filter P l = l.
Proof.
  induction 1 as [|x l Hx _ IH]; [done|].
  rewrite filter_cons_True by done. by rewrite IH.
Qed.

Lemma filter_none l : Forall (λ x, ¬ P x) l → filter P l = [].
Proof.
  induction 1 as [|x l Hx _ IH]; [done|].
  by rewrite filter_cons_False.
Qed.
End first_row.

(** Distinct keys make two rows with one key the same row. *)
Lemma NoDup_key_inj {A K} (key : A → K) (l : list A) x y :
  NoDup (key <$> l) → x ∈ l → y ∈ l → key x = key y → x = y.
Proof.
  induction l as [|z l IH]; intros Hnd Hx Hy Hk; [by inversion Hx|].
  rewrite fmap_cons in Hnd. apply NoDup_cons in Hnd as [Hz Hnd].
  apply elem_of_cons in Hx as [->|Hx]; apply elem_of_cons in Hy as [->|Hy];
    try done.
  - destruct Hz. rewrite Hk. by apply list_elem_of_fmap_2.
  - destruct Hz. rewrite <- Hk. by apply list_elem_of_fmap_2.
  - by apply IH.
Qed.

(** ** crud.py *)

Lemma get_chat_Some db cid s c :
  crud.get_chat db cid s = Some c →
  c ∈ chats db ∧ chat_id c = cid ∧ chat_session_id c = s.
Proof. intros Hc. by apply first_row_Some in Hc. Qed.

Lemma get_chat_by_username_Some db u s c :
  crud.get_chat_by_username db u s = Some c →
  c ∈ chats db ∧ chat_username c = u ∧ chat_session_id c = s.
Proof. intros Hc. by apply first_row_Some in Hc. Qed.

Lemma get_chat_found db c :
  NoDup (chat_id <$> chats db) → c ∈ chats db →
  crud.get_chat db (chat_id c) (chat_session_id c) = Some c.
Proof.
  intros Hnd Hc. apply first_row_unique; [done..|].
  intros y Hy [Hid _]. by apply (NoDup_key_inj chat_id (chats db)).
Qed.

Lemma get_chat_by_username_found db c :
  NoDup ((λ c, (chat_username c, chat_session_id c)) <$> chats db) →
  c ∈ chats db →
  crud.get_chat_by_username db (chat_username c) (chat_session_id c) = Some c.
Proof.
  intros Hnd Hc. apply first_row_unique; [done..|].
  intros y Hy [Hu Hs].
  apply (NoDup_key_inj _ (chats db) _ _ Hnd Hy Hc). simpl. congruence.
Qed.

Lemma get_chat_other_session db c s :
  NoDup (chat_id <$> chats db) → c ∈ chats db → s ≠ chat_session_id c →
  crud.get_chat db (chat_id c) s = None.
Proof.
  intros Hnd Hc Hs. apply first_row_None. intros y Hy [Hid Hys].
  apply Hs. rewrite <- Hys. f_equal.
  by apply (NoDup_key_inj chat_id (chats db)).
Qed.

Lemma create_chat_message_ok db cid m :
  cid ∈ chat_id <$> chats db →
  crud.create_chat_message cid m db =
    (Return (mkMessage (next_uuid db) (schemas.content m) (schemas.role m)
               (schemas.session_id m) cid),
     with_message db (mkMessage (next_uuid db) (schemas.content m)
                        (schemas.role m) (schemas.session_id m) cid)).
Proof.
  intros Hc. unfold crud.create_chat_message, crud.add_commit_refresh_message.
  by rewrite decide_True.
Qed.

Lemma create_chat_message_refused db cid m :
  cid ∉ chat_id <$> chats db →
  crud.create_chat_message cid m db = (Raise IntegrityError, db).
Proof.
  intros Hc. unfold crud.create_chat_message, crud.add_commit_refresh_message.
  by rewrite decide_False.
Qed.

(** The loop of [crud.create_chat] over the supplied messages. *)
Lemma for_each_create_chat_message owner msgs db :
  owner ∈ chat_id <$> chats db →
  for_each msgs (λ m, crud.create_chat_message owner m ;; mret ()) db =
    (Return (),
     {| chats := chats db;
        messages := messages db ++ rows_of (next_uuid db) owner msgs;
        next_uuid := next_uuid db + length msgs |}).
Proof.
  revert db. induction msgs as [|m msgs IH]; intros db Howner; simpl.
  - destruct db as [cs ms n]; simpl. unfold mret, SE_ret.
    by rewrite app_nil_r, Nat.add_0_r.
  - erewrite bind_Return; last first.
    { erewrite bind_Return; [|by apply create_chat_message_ok]. done. }
    rewrite IH by done. simpl.
    by rewrite <- app_assoc, Nat.add_succ_r.
Qed.

Lemma create_chat_conflict chat db c :
  crud.get_chat_by_username db (schemas.username chat)
    (schemas.create_session_id chat) = Some c →
  crud.create_chat chat db =
    (Raise (HTTPException 400
              ("Chat with username " +:+ schemas.username chat
               +:+ " already exists")), db).
Proof.
  intros Hc. unfold crud.create_chat.
  erewrite bind_Return; [|unfold gets; by rewrite Hc]. done.
Qed.

Lemma create_chat_new chat db :
  crud.get_chat_by_username db (schemas.username chat)
    (schemas.create_session_id chat) = None →
  let row := mkChat (next_uuid db) (schemas.username chat)
               (schemas.create_session_id chat) in
  crud.create_chat chat db =
    (Return row,
     {| chats := chats db ++ [row];
        messages := messages db
                    ++ rows_of (S (next_uuid db)) (next_uuid db)
                         (schemas.create_messages chat);
        next_uuid := S (next_uuid db)
                     + length (schemas.create_messages chat) |}).
Proof.
  intros Hc row. unfold crud.create_chat.
  erewrite bind_Return; [|unfold gets; by rewrite Hc]. cbv beta iota.
  erewrite bind_Return; [|done]. cbv beta.
  erewrite bind_Return; [done|].
  rewrite for_each_create_chat_message; [done|].
  simpl. rewrite fmap_app. apply elem_of_app. right. by left.
Qed.

(** ** The constraints of the store are kept by every operation *)

Lemma db_ok_empty : db_ok empty_db.
Proof. unfold db_ok, empty_db; simpl. repeat split; constructor. Qed.

Lemma db_ok_with_message db row :
  db_ok db → message_id row = next_uuid db →
  message_owner_id row ∈ chat_id <$> chats db →
  db_ok (with_message db row).
Proof.
  intros (Hc & Hm & Hcid & Hmid & Hfk & Hpair) Hid Howner.
  unfold db_ok, with_message; simpl. repeat split; [| | done | | | done].
  - eapply Forall_impl; [exact Hc|]. simpl. intros; lia.
  - apply Forall_app. split.
    + eapply Forall_impl; [exact Hm|]. simpl. intros; lia.
    + apply Forall_singleton. lia.
  - rewrite fmap_app. apply NoDup_app. repeat split; [done| |apply NoDup_singleton].
    intros x Hx Hx'. apply list_elem_of_singleton in Hx'. subst x.
    apply list_elem_of_fmap in Hx as (m & Hxm & Hin).
    rewrite Forall_forall in Hm. apply Hm in Hin. lia.
  - apply Forall_app. split; [done|]. by apply Forall_singleton.
Qed.

Lemma db_ok_with_chat db u s :
  db_ok db → crud.get_chat_by_username db u s = None →
  db_ok {| chats := chats db ++ [mkChat (next_uuid db) u s];
           messages := messages db;
           next_uuid := S (next_uuid db) |}.
Proof.
  intros (Hc & Hm & Hcid & Hmid & Hfk & Hpair) Hnone.
  unfold db_ok; simpl. repeat split; [| | | done | |].
  - apply Forall_app. split.
    + eapply Forall_impl; [exact Hc|]. simpl. intros; lia.
    + apply Forall_singleton. simpl. lia.
  - eapply Forall_impl; [exact Hm|]. simpl. intros; lia.
  - rewrite fmap_app. apply NoDup_app. repeat split; [done| |apply NoDup_singleton].
    intros x Hx Hx'. apply list_elem_of_singleton in Hx'. simpl in Hx'. subst x.
    apply list_elem_of_fmap in Hx as (c & Hxc & Hin).
    rewrite Forall_forall in Hc. apply Hc in Hin. lia.
  - eapply Forall_impl; [exact Hfk|]. simpl. intros m Hin.
    rewrite fmap_app. apply elem_of_app. by left.
  - rewrite fmap_app. apply NoDup_app. repeat split; [done| |apply NoDup_singleton].
    intros x Hx Hx'. apply list_elem_of_singleton in Hx'. simpl in Hx'. subst x.
    apply list_elem_of_fmap in Hx as (c & Hxc & Hin).
    unfold crud.get_chat_by_username in Hnone.
    rewrite first_row_None in Hnone. apply (Hnone c Hin).
    by inversion Hxc.
Qed.

Lemma db_ok_rows_of db owner msgs :
  db_ok db → owner ∈ chat_id <$> chats db →
  db_ok {| chats := chats db;
           messages := messages db ++ rows_of (next_uuid db) owner msgs;
           next_uuid := next_uuid db + length msgs |}.
Proof.
  revert db. induction msgs as [|m msgs IH]; intros db Hok Howner; simpl.
  - destruct db; simpl in *. by rewrite app_nil_r, Nat.add_0_r.
  - set (row := mkMessage _ _ _ _ _).
    specialize (IH (with_message db row)). simpl in IH.
    rewrite <- app_assoc in IH. simpl in IH.
    rewrite Nat.add_succ_r. apply IH; [|done].
    by apply db_ok_with_message.
Qed.

Lemma db_ok_create_chat_message db cid m :
  db_ok db → db_ok (crud.create_chat_message cid m db).2.
Proof.
  intros Hok. destruct (decide (cid ∈ chat_id <$> chats db)) as [Hin|Hout].
  - rewrite create_chat_message_ok by done. simpl.
    by apply db_ok_with_message.
  - by rewrite create_chat_message_refused.
Qed.

Lemma db_ok_create_chat db chat :
  db_ok db → db_ok (crud.create_chat chat db).2.
Proof.
  intros Hok.
  destruct (crud.get_chat_by_username db (schemas.username chat)
              (schemas.create_session_id chat)) as [c|] eqn:Hc.
  - by erewrite create_chat_conflict.
  - rewrite create_chat_new by done. simpl.
    pose proof (db_ok_with_chat db _ _ Hok Hc) as Hok'.
    apply (db_ok_rows_of _ (next_uuid db) (schemas.create_messages chat))
      in Hok'; [done|].
    simpl. rewrite fmap_app. apply elem_of_app. right. by left.
Qed.

(** The two GET routes leave the store as it is. *)
Lemma app_GET_chats_chat_id_store db headers cid :
  (db_api.app (http.GET_chats_chat_id cid headers) db).2 = db.
Proof.
  simpl. unfold db_api.serve, db_api.get_chat_by_id, mbind, SE_bind.
  destruct (db_api.not_ _); [done|]. simpl.
  by destruct (crud.get_chat _ _ _).
Qed.

Lemma app_GET_chats_username_store db headers u :
  (db_api.app (http.GET_chats_username u headers) db).2 = db.
Proof.
  simpl. unfold db_api.serve, db_api.get_chat_by_username, mbind, SE_bind.
  destruct (db_api.not_ _); [done|]. simpl.
  by destruct (crud.get_chat_by_username _ _ _).
Qed.

(** Requests to the API keep the constraints. *)
Lemma db_ok_app db r : db_ok db → db_ok (db_api.app r db).2.
Proof.
  intros Hok. destruct r as [chat|cid hs|u hs|cid m];
    [| by rewrite app_GET_chats_chat_id_store
     | by rewrite app_GET_chats_username_store |];
    simpl; unfold db_api.serve.
  - unfold db_api.create_chat.
    pose proof (db_ok_create_chat db chat Hok) as Hok'.
    unfold mbind, SE_bind.
    by destruct (crud.create_chat chat db) as [[c|e] db'].
  - unfold db_api.create_chat_message.
    pose proof (db_ok_create_chat_message db cid m Hok) as Hok'.
    by destruct (crud.create_chat_message cid m db) as [o db'].
Qed.

Lemma reachable_db_ok db : reachable db → db_ok db.
Proof.
  induction 1 as [|db r _ IH]; [apply db_ok_empty|by apply db_ok_app].
Qed.

(** ** db-api/app/main.py: the two GET routes *)

Lemma get_chat_by_id_present db s cid :
  s ≠ "" →
  db_api.get_chat_by_id (http.X_Session_ID s) cid db =
    (Return (schemas.Chat_from_attributes db <$> crud.get_chat db cid s), db).
Proof.
  intros Hs. unfold db_api.get_chat_by_id, http.X_Session_ID.
  rewrite lookup_singleton_eq. simpl. by rewrite bool_decide_false.
Qed.

Lemma get_chat_by_username_present db s u :
  s ≠ "" →
  db_api.get_chat_by_username (http.X_Session_ID s) u db =
    (Return (schemas.Chat_from_attributes db
               <$> crud.get_chat_by_username db u s), db).
Proof.
  intros Hs. unfold db_api.get_chat_by_username, http.X_Session_ID.
  rewrite lookup_singleton_eq. simpl. by rewrite bool_decide_false.
Qed.

Lemma get_chat_by_id_required db headers cid :
  db_api.not_ (headers !! "X-Session-ID") = true →
  db_api.get_chat_by_id headers cid db =
    (Raise (HTTPException 400 "Session ID is required"), db).
Proof. intros Hn. unfold db_api.get_chat_by_id. by rewrite Hn. Qed.

Lemma get_chat_by_username_required db headers u :
  db_api.not_ (headers !! "X-Session-ID") = true →
  db_api.get_chat_by_username headers u db =
    (Raise (HTTPException 400 "Session ID is required"), db).
Proof. intros Hn. unfold db_api.get_chat_by_username. by rewrite Hn. Qed.

(** The answers of the two GET routes, from the results of their
    handlers. *)
Lemma app_GET_chats_chat_id_eq db headers cid :
  db_api.app (http.GET_chats_chat_id cid headers) db =
    match db_api.get_chat_by_id headers cid db with
    | (Return (Some chat), db') =>
        (http.mkResponse 200 (Some (http.JChat chat)), db')
    | (Return None, db') => (http.mkResponse 500 None, db')
    | (Raise e, db') => (http.respond http.JChat (Raise e), db')
    end.
Proof.
  simpl. unfold db_api.serve, mbind, SE_bind.
  by destruct (db_api.get_chat_by_id headers cid db) as [[[chat|]|e] db'].
Qed.

Lemma app_GET_chats_username_eq db headers u :
  db_api.app (http.GET_chats_username u headers) db =
    match db_api.get_chat_by_username headers u db with
    | (Return (Some chat), db') =>
        (http.mkResponse 200 (Some (http.JChat chat)), db')
    | (Return None, db') => (http.mkResponse 500 None, db')
    | (Raise e, db') => (http.respond http.JChat (Raise e), db')
    end.
Proof.
  simpl. unfold db_api.serve, mbind, SE_bind.
  by destruct (db_api.get_chat_by_username headers u db)
    as [[[chat|]|e] db'].
Qed.

(** C7: a GET request to the fetch-by-identifier or to the
    fetch-by-username route that carries no [X-Session-ID] header is
    answered with status 400 and the store is left as it was; a request
    with a token under which no chat matches is not: its handler returns
    the empty result and its status is not 400. *)
Theorem C7_missing_session_header db headers :
  headers !! "X-Session-ID" = None →
  (∀ cid,
     db_api.app (http.GET_chats_chat_id cid headers) db =
       (http.mkResponse 400 (Some (http.JDetail "Session ID is required")), db))
  ∧ (∀ u,
     db_api.app (http.GET_chats_username u headers) db =
       (http.mkResponse 400 (Some (http.JDetail "Session ID is required")), db))
  ∧ (∀ s cid, s ≠ "" → crud.get_chat db cid s = None →
     db_api.get_chat_by_id (http.X_Session_ID s) cid db = (Return None, db)
     ∧ http.status_code
         (db_api.app (http.GET_chats_chat_id cid (http.X_Session_ID s)) db).1 ≠ 400)
  ∧ (∀ s u, s ≠ "" → crud.get_chat_by_username db u s = None →
     db_api.get_chat_by_username (http.X_Session_ID s) u db = (Return None, db)
     ∧ http.status_code
         (db_api.app (http.GET_chats_username u (http.X_Session_ID s)) db).1 ≠ 400).
Proof.
  intros Hh. split; [|split; [|split]].
  - intros cid. rewrite app_GET_chats_chat_id_eq.
    rewrite get_chat_by_id_required; [done|by rewrite Hh].
  - intros u. rewrite app_GET_chats_username_eq.
    rewrite get_chat_by_username_required; [done|by rewrite Hh].
  - intros s cid Hs Hnone. split.
    + rewrite get_chat_by_id_present by done. by rewrite Hnone.
    + rewrite app_GET_chats_chat_id_eq, get_chat_by_id_present by done.
      rewrite Hnone. simpl. lia.
  - intros s u Hs Hnone. split.
    + rewrite get_chat_by_username_present by done. by rewrite Hnone.
    + rewrite app_GET_chats_username_eq, get_chat_by_username_present
        by done.
      rewrite Hnone. simpl. lia.
Qed.

Lemma C7_missing_session_header_witness :
  (∅ : gmap string string) !! "X-Session-ID" = None
  ∧ db_api.app (http.GET_chats_chat_id 0 ∅) empty_db =
      (http.mkResponse 400 (Some (http.JDetail "Session ID is required")),
       empty_db)
  ∧ db_api.get_chat_by_id (http.X_Session_ID "S") 0 empty_db = (Return None, empty_db).
Proof.
  pose proof (C7_missing_session_header empty_db ∅ eq_refl)
    as (Hid & _ & Hother & _).
  split; [reflexivity|]. split; [apply Hid|].
  apply (Hother "S" 0); [discriminate|reflexivity].
Defined.

(** C4: under a session token that is present, neither GET route returns
    a chat of another session; a chat fetched by its identifier under a
    token that is not its own, or by a username that has no chat under the
    token, gives the empty result; and of two chats with one username and
    different sessions, each session sees its own chat and not the
    other's. *)
Theorem C4_session_scoping db s :
  s ≠ "" → db_ok db →
  (∀ cid c,
     (db_api.get_chat_by_id (http.X_Session_ID s) cid db).1 = Return (Some c) →
     schemas.chat_session_id c = s)
  ∧ (∀ u c,
     (db_api.get_chat_by_username (http.X_Session_ID s) u db).1
       = Return (Some c) →
     schemas.chat_session_id c = s)
  ∧ (∀ c, c ∈ chats db → chat_session_id c ≠ s →
     db_api.get_chat_by_id (http.X_Session_ID s) (chat_id c) db
       = (Return None, db))
  ∧ (∀ u, (∀ c, c ∈ chats db → chat_username c = u → chat_session_id c ≠ s) →
     db_api.get_chat_by_username (http.X_Session_ID s) u db
       = (Return None, db))
  ∧ (∀ c1 c2, c1 ∈ chats db → c2 ∈ chats db →
     chat_username c1 = chat_username c2 →
     chat_session_id c1 = s → chat_session_id c2 ≠ s →
     db_api.get_chat_by_username (http.X_Session_ID s) (chat_username c2) db
       = (Return (Some (schemas.Chat_from_attributes db c1)), db)
     ∧ db_api.get_chat_by_id (http.X_Session_ID s) (chat_id c2) db
       = (Return None, db)).
Proof.
  intros Hs (_ & _ & Hcid & _ & _ & Hpair).
  split; [|split; [|split; [|split]]].
  - intros cid c. rewrite get_chat_by_id_present by done. simpl.
    destruct (crud.get_chat db cid s) as [row|] eqn:Hrow; [|discriminate].
    apply get_chat_Some in Hrow as (_ & _ & Hsess).
    simpl. intros [= <-]. done.
  - intros u c. rewrite get_chat_by_username_present by done. simpl.
    destruct (crud.get_chat_by_username db u s) as [row|] eqn:Hrow;
      [|discriminate].
    apply get_chat_by_username_Some in Hrow as (_ & _ & Hsess).
    simpl. intros [= <-]. done.
  - intros c Hc Hne. rewrite get_chat_by_id_present by done.
    rewrite get_chat_other_session; [done..|]. congruence.
  - intros u Hnone. rewrite get_chat_by_username_present by done.
    unfold crud.get_chat_by_username.
    rewrite (proj2 (first_row_None _ _)); [done|].
    intros c Hc [Hu Hsess]. by apply (Hnone c).
  - intros c1 c2 Hc1 Hc2 Hu Hs1 Hs2. split.
    + rewrite get_chat_by_username_present by done.
      rewrite <- Hu, <- Hs1. by rewrite get_chat_by_username_found.
    + rewrite get_chat_by_id_present by done.
      rewrite get_chat_other_session; [done..|]. congruence.
Qed.

(** C9: a chat of the store is found by its identifier and by its
    username under its session, and both fetches give the same chat with
    the same messages in the same order; the two GET routes answer alike
    for it. *)
Theorem C9_fetch_by_id_and_by_username db c :
  db_ok db → c ∈ chats db →
  crud.get_chat db (chat_id c) (chat_session_id c) = Some c
  ∧ crud.get_chat_by_username db (chat_username c) (chat_session_id c) = Some c
  ∧ db_api.app
      (http.GET_chats_chat_id (chat_id c)
         (http.X_Session_ID (chat_session_id c))) db
    = db_api.app
        (http.GET_chats_username (chat_username c)
           (http.X_Session_ID (chat_session_id c))) db
  ∧ (chat_session_id c ≠ "" →
     db_api.app
       (http.GET_chats_chat_id (chat_id c)
          (http.X_Session_ID (chat_session_id c))) db
     = (http.mkResponse 200
          (Some (http.JChat (schemas.Chat_from_attributes db c))), db)).
Proof.
  intros (_ & _ & Hcid & _ & _ & Hpair) Hc.
  pose proof (get_chat_found db c Hcid Hc) as Hid.
  pose proof (get_chat_by_username_found db c Hpair Hc) as Hname.
  split; [done|]. split; [done|].
  destruct (decide (chat_session_id c = "")) as [Hempty|Hs].
  - split; [|done].
    rewrite app_GET_chats_chat_id_eq, app_GET_chats_username_eq.
    rewrite get_chat_by_id_required, get_chat_by_username_required; [done|..];
      unfold http.X_Session_ID; rewrite lookup_singleton_eq; simpl;
      by apply bool_decide_eq_true_2.
  - assert (db_api.app
       (http.GET_chats_chat_id (chat_id c)
          (http.X_Session_ID (chat_session_id c))) db
     = (http.mkResponse 200
          (Some (http.JChat (schemas.Chat_from_attributes db c))), db)) as Hget.
    { rewrite app_GET_chats_chat_id_eq, get_chat_by_id_present by done.
      by rewrite Hid. }
    split; [|done]. rewrite Hget.
    rewrite app_GET_chats_username_eq, get_chat_by_username_present by done.
    by rewrite Hname.
Qed.

Lemma C4_session_scoping_witness :
  "S1" ≠ "" ∧ db_ok examples.two_sessions_db
  ∧ db_api.get_chat_by_username (http.X_Session_ID "S1") "alice"
      examples.two_sessions_db
    = (Return (Some (schemas.Chat_from_attributes examples.two_sessions_db
                       examples.alice_S1)),
       examples.two_sessions_db)
  ∧ db_api.get_chat_by_id (http.X_Session_ID "S1") 3 examples.two_sessions_db
    = (Return None, examples.two_sessions_db).
Proof.
  assert ("S1" ≠ "") as Hs by discriminate.
  assert (db_ok examples.two_sessions_db) as Hok by compute_done.
  split; [exact Hs|]. split; [exact Hok|].
  destruct (C4_session_scoping examples.two_sessions_db "S1" Hs Hok)
    as (_ & _ & _ & _ & Htwo).
  apply (Htwo examples.alice_S1 examples.alice_S2); compute_done.
Defined.

Lemma C9_fetch_by_id_and_by_username_witness :
  db_ok examples.two_sessions_db
  ∧ examples.alice_S2 ∈ chats examples.two_sessions_db
  ∧ crud.get_chat examples.two_sessions_db 3 "S2" = Some examples.alice_S2
  ∧ crud.get_chat_by_username examples.two_sessions_db "alice" "S2"
    = Some examples.alice_S2.
Proof.
  assert (db_ok examples.two_sessions_db) as Hok by compute_done.
  assert (examples.alice_S2 ∈ chats examples.two_sessions_db) as Hin
    by compute_done.
  split; [exact Hok|]. split; [exact Hin|].
  destruct (C9_fetch_by_id_and_by_username examples.two_sessions_db
              examples.alice_S2 Hok Hin) as (Hid & Hname & _).
  split; [exact Hid|exact Hname].
Defined.

(** ** What [rows_of] writes *)

Lemma rows_of_owner first owner msgs :
  Forall (λ m, message_owner_id m = owner) (rows_of first owner msgs).
Proof.
  revert first. induction msgs as [|m msgs IH]; intros first; simpl;
    constructor; [done|apply IH].
Qed.

Lemma rows_of_fields first owner msgs :
  (λ m, schemas.mkMessageCreate (message_content m) (message_role m)
          (message_session_id m)) <$> rows_of first owner msgs = msgs.
Proof.
  revert first. induction msgs as [|[c r s] msgs IH]; intros first; simpl;
    [done|]. by rewrite IH.
Qed.

Lemma rows_of_ids first owner msgs :
  message_id <$> rows_of first owner msgs = seq first (length msgs).
Proof.
  revert first. induction msgs as [|m msgs IH]; intros first; simpl;
    [done|]. by rewrite IH.
Qed.

(** No message of a store that satisfies its constraints is owned by an
    identifier not handed out yet. *)
Lemma Chat_messages_fresh db rows :
  db_ok db → Forall (λ m, message_owner_id m = next_uuid db) rows →
  filter (λ m, message_owner_id m = next_uuid db) (messages db ++ rows) = rows.
Proof.
  intros (Hc & _ & _ & _ & Hfk & _) Hrows.
  rewrite filter_app, filter_none, filter_all; [done..|].
  eapply Forall_impl; [exact Hfk|]. simpl. intros m Hin Heq.
  rewrite Heq in Hin. apply list_elem_of_fmap in Hin as (c & Hid & Hin).
  rewrite Forall_forall in Hc. apply Hc in Hin. lia.
Qed.

(** ** db-api/app/main.py: the two POST routes *)

Lemma app_POST_chats_conflict chat db c :
  crud.get_chat_by_username db (schemas.username chat)
    (schemas.create_session_id chat) = Some c →
  db_api.app (http.POST_chats chat) db =
    (http.mkResponse 400
       (Some (http.JDetail ("Chat with username " +:+ schemas.username chat
                            +:+ " already exists"))), db).
Proof.
  intros Hc. simpl. unfold db_api.serve, db_api.create_chat.
  erewrite bind_Raise; [|by eapply create_chat_conflict]. done.
Qed.

Lemma app_POST_chats_new chat db :
  db_ok db →
  crud.get_chat_by_username db (schemas.username chat)
    (schemas.create_session_id chat) = None →
  db_api.app (http.POST_chats chat) db =
    (http.mkResponse 200
       (Some (http.JChat
                {| schemas.id := next_uuid db;
                   schemas.chat_username := schemas.username chat;
                   schemas.chat_session_id := schemas.create_session_id chat;
                   schemas.chat_messages :=
                     rows_of (S (next_uuid db)) (next_uuid db)
                       (schemas.create_messages chat) |})),
     {| chats := chats db ++ [mkChat (next_uuid db) (schemas.username chat)
                                (schemas.create_session_id chat)];
        messages := messages db
                    ++ rows_of (S (next_uuid db)) (next_uuid db)
                         (schemas.create_messages chat);
        next_uuid := S (next_uuid db)
                     + length (schemas.create_messages chat) |}).
Proof.
  intros Hok Hget. simpl. unfold db_api.serve, db_api.create_chat.
  erewrite bind_Return; [|by apply create_chat_new].
  unfold gets, schemas.Chat_from_attributes, Chat_messages. simpl.
  rewrite Chat_messages_fresh; [done..|]. apply rows_of_owner.
Qed.

Lemma app_POST_chats_message_ok db cid m :
  cid ∈ chat_id <$> chats db →
  let row := mkMessage (next_uuid db) (schemas.content m) (schemas.role m)
               (schemas.session_id m) cid in
  db_api.app (http.POST_chats_message cid m) db =
    (http.mkResponse 200 (Some (http.JMessage row)), with_message db row).
Proof.
  intros Hin row. simpl. unfold db_api.serve, db_api.create_chat_message.
  by rewrite create_chat_message_ok.
Qed.

Lemma app_POST_chats_message_refused db cid m :
  cid ∉ chat_id <$> chats db →
  db_api.app (http.POST_chats_message cid m) db = (http.mkResponse 500 None, db).
Proof.
  intros Hout. simpl. unfold db_api.serve, db_api.create_chat_message.
  by rewrite create_chat_message_refused.
Qed.

Lemma app_GET_chats_chat_id db s cid :
  s ≠ "" →
  db_api.app (http.GET_chats_chat_id cid (http.X_Session_ID s)) db =
    (match crud.get_chat db cid s with
     | Some c =>
         http.mkResponse 200
           (Some (http.JChat (schemas.Chat_from_attributes db c)))
     | None => http.mkResponse 500 None
     end, db).
Proof.
  intros Hs. rewrite app_GET_chats_chat_id_eq, get_chat_by_id_present by done.
  by destruct (crud.get_chat db cid s).
Qed.

Lemma app_GET_chats_username db s u :
  s ≠ "" →
  db_api.app (http.GET_chats_username u (http.X_Session_ID s)) db =
    (match crud.get_chat_by_username db u s with
     | Some c =>
         http.mkResponse 200
           (Some (http.JChat (schemas.Chat_from_attributes db c)))
     | None => http.mkResponse 500 None
     end, db).
Proof.
  intros Hs.
  rewrite app_GET_chats_username_eq, get_chat_by_username_present by done.
  by destruct (crud.get_chat_by_username db u s).
Qed.

(** C2: the create-chat route answers 400 when the store holds a chat for
    the username and the session of the request, and leaves the store as
    it was; otherwise it adds the chat row under a new identifier, then
    one message row for each supplied message, in the order given and
    owned by the new chat, and answers 200 with the chat and these
    messages, identifiers included. *)
Theorem C2_create_chat chat db :
  db_ok db →
  (∀ c, c ∈ chats db →
     chat_username c = schemas.username chat →
     chat_session_id c = schemas.create_session_id chat →
     db_api.app (http.POST_chats chat) db =
       (http.mkResponse 400
          (Some (http.JDetail ("Chat with username " +:+ schemas.username chat
                               +:+ " already exists"))), db))
  ∧ ((∀ c, c ∈ chats db →
        ¬ (chat_username c = schemas.username chat
           ∧ chat_session_id c = schemas.create_session_id chat)) →
     let row := mkChat (next_uuid db) (schemas.username chat)
                  (schemas.create_session_id chat) in
     let rows := rows_of (S (next_uuid db)) (next_uuid db)
                   (schemas.create_messages chat) in
     db_api.app (http.POST_chats chat) db =
       (http.mkResponse 200
          (Some (http.JChat
                   {| schemas.id := next_uuid db;
                      schemas.chat_username := schemas.username chat;
                      schemas.chat_session_id := schemas.create_session_id chat;
                      schemas.chat_messages := rows |})),
        {| chats := chats db ++ [row];
           messages := messages db ++ rows;
           next_uuid := S (next_uuid db)
                        + length (schemas.create_messages chat) |})
     ∧ (next_uuid db ∉ chat_id <$> chats db)
     ∧ Forall (λ m, message_owner_id m = next_uuid db) rows
     ∧ (λ m, schemas.mkMessageCreate (message_content m) (message_role m)
               (message_session_id m)) <$> rows
       = schemas.create_messages chat
     ∧ message_id <$> rows
       = seq (S (next_uuid db)) (length (schemas.create_messages chat))).
Proof.
  intros Hok. split.
  - intros c Hc Hu Hs.
    destruct (crud.get_chat_by_username db (schemas.username chat)
                (schemas.create_session_id chat)) as [c'|] eqn:Hc'.
    + by eapply app_POST_chats_conflict.
    + unfold crud.get_chat_by_username in Hc'.
      rewrite first_row_None in Hc'. by destruct (Hc' c Hc).
  - intros Hnone row rows.
    assert (crud.get_chat_by_username db (schemas.username chat)
              (schemas.create_session_id chat) = None) as Hget.
    { by apply first_row_None. }
    split; [|split; [|split; [|split]]].
    + by apply app_POST_chats_new.
    + destruct Hok as (Hc & _). intros Hin.
      apply list_elem_of_fmap in Hin as (c & Hid & Hin).
      rewrite Forall_forall in Hc. apply Hc in Hin. lia.
    + apply rows_of_owner.
    + apply rows_of_fields.
    + apply rows_of_ids.
Qed.

Lemma C2_create_chat_witness :
  db_ok examples.one_chat_db
  ∧ db_api.app
      (http.POST_chats (schemas.mkChatCreate "alice" (examples.seed "S1") "S1"))
      examples.one_chat_db
    = (http.mkResponse 400
         (Some (http.JDetail "Chat with username alice already exists")),
       examples.one_chat_db)
  ∧ (db_api.app
       (http.POST_chats (schemas.mkChatCreate "bob" (examples.seed "S1") "S1"))
       examples.one_chat_db).1
    = http.mkResponse 200
        (Some (http.JChat
                 (schemas.mkChat 3 "bob" "S1"
                    (rows_of 4 3 (examples.seed "S1"))))).
Proof.
  assert (db_ok examples.one_chat_db) as Hok by compute_done.
  split; [exact Hok|]. split.
  - destruct (C2_create_chat
                (schemas.mkChatCreate "alice" (examples.seed "S1") "S1")
                examples.one_chat_db Hok) as [Hconflict _].
    assert (examples.alice_S1 ∈ chats examples.one_chat_db) as Hin
      by compute_done.
    exact (Hconflict examples.alice_S1 Hin eq_refl eq_refl).
  - destruct (C2_create_chat
                (schemas.mkChatCreate "bob" (examples.seed "S1") "S1")
                examples.one_chat_db Hok) as [_ Hnew].
    assert (Forall (λ c, chat_username c ≠ "bob")
              (chats examples.one_chat_db)) as Hfree by compute_done.
    rewrite Forall_forall in Hfree.
    specialize (Hnew (λ c Hc Hbob, Hfree c Hc (proj1 Hbob))).
    cbv zeta in Hnew. destruct Hnew as [Hresp _]. by rewrite Hresp.
Defined.

(** ** The session of a message and the session of its chat *)

Lemma session_copied_with_message db row :
  session_copied db →
  (∀ c, c ∈ chats db → chat_id c = message_owner_id row →
        message_session_id row = chat_session_id c) →
  session_copied (with_message db row).
Proof.
  intros Hinv Hrow. unfold session_copied, with_message; simpl.
  apply Forall_app. split; [done|].
  apply Forall_singleton. by apply Forall_forall.
Qed.

Lemma session_copied_rows_of db owner msgs :
  session_copied db →
  (∀ c, c ∈ chats db → chat_id c = owner →
        Forall (λ m, schemas.session_id m = chat_session_id c) msgs) →
  session_copied
    {| chats := chats db;
       messages := messages db ++ rows_of (next_uuid db) owner msgs;
       next_uuid := next_uuid db + length msgs |}.
Proof.
  revert db. induction msgs as [|m msgs IH]; intros db Hinv Hsess; simpl.
  - unfold session_copied in *; simpl. by rewrite app_nil_r.
  - set (row := mkMessage _ _ _ _ _).
    specialize (IH (with_message db row)). simpl in IH.
    rewrite <- app_assoc in IH. simpl in IH.
    rewrite Nat.add_succ_r. apply IH.
    + apply session_copied_with_message; [done|]. simpl.
      intros c Hc Hid. specialize (Hsess c Hc Hid).
      by apply Forall_cons in Hsess as [? _].
    + intros c Hc Hid. specialize (Hsess c Hc Hid).
      by apply Forall_cons in Hsess as [_ ?].
Qed.

Lemma session_copied_with_chat db u s :
  db_ok db → session_copied db →
  session_copied {| chats := chats db ++ [mkChat (next_uuid db) u s];
                    messages := messages db;
                    next_uuid := S (next_uuid db) |}.
Proof.
  intros (Hc & _ & _ & _ & Hfk & _) Hinv. unfold session_copied in *; simpl.
  rewrite Forall_forall in Hinv. rewrite Forall_forall in Hfk.
  rewrite Forall_forall in Hc. apply Forall_forall. intros m Hm.
  apply Forall_app. split; [by apply Hinv|].
  apply Forall_singleton. simpl. intros Hid.
  specialize (Hfk m Hm). simpl in Hfk. rewrite <- Hid in Hfk.
  apply list_elem_of_fmap in Hfk as (c & Hcid & Hin).
  apply Hc in Hin. lia.
Qed.

(** C8, as stated, fails: a message posted to alice's chat of session S1
    with another session in its body is stored with that other session. *)
Lemma C8_session_copy_counterexample :
  db_ok examples.one_chat_db
  ∧ session_copied examples.one_chat_db
  ∧ (db_api.app
       (http.POST_chats_message 0 (schemas.mkMessageCreate "hi" "user" "S2"))
       examples.one_chat_db).1
    = http.mkResponse 200 (Some (http.JMessage (mkMessage 3 "hi" "user" "S2" 0)))
  ∧ ¬ session_copied
        (db_api.app
           (http.POST_chats_message 0
              (schemas.mkMessageCreate "hi" "user" "S2"))
           examples.one_chat_db).2
  ∧ ¬ session_copy_maintained.
Proof.
  assert (db_ok examples.one_chat_db) as Hok by compute_done.
  assert (session_copied examples.one_chat_db) as Hinv by compute_done.
  assert (¬ session_copied
            (db_api.app
               (http.POST_chats_message 0
                  (schemas.mkMessageCreate "hi" "user" "S2"))
               examples.one_chat_db).2) as Hbroken by compute_done.
  split; [exact Hok|]. split; [exact Hinv|]. split; [reflexivity|].
  split; [exact Hbroken|].
  intros Hall. apply Hbroken. by apply Hall.
Qed.

(** C8, amended: the API stores the session identifier of the request
    body with the message; a store in which every message carries the
    session of its chat stays so when a message is added whose session
    identifier is the one of the chat it is added to, and when a chat is
    created with initial messages that all carry the session identifier
    of the chat. *)
Theorem C8_session_copied_when_supplied db :
  db_ok db → session_copied db →
  (∀ cid m,
     (∀ c, c ∈ chats db → chat_id c = cid →
           chat_session_id c = schemas.session_id m) →
     session_copied (db_api.app (http.POST_chats_message cid m) db).2)
  ∧ (∀ chat,
     Forall (λ m, schemas.session_id m = schemas.create_session_id chat)
       (schemas.create_messages chat) →
     session_copied (db_api.app (http.POST_chats chat) db).2)
  ∧ (∀ cid m row db',
     db_api.create_chat_message cid m db = (Return row, db') →
     message_session_id row = schemas.session_id m
     ∧ message_owner_id row = cid).
Proof.
  intros Hok Hinv. split; [|split].
  - intros cid m Hsess. simpl. unfold db_api.serve, db_api.create_chat_message.
    destruct (decide (cid ∈ chat_id <$> chats db)) as [Hin|Hout].
    + rewrite create_chat_message_ok by done. simpl.
      apply session_copied_with_message; [done|]. simpl.
      intros c Hc Hid. symmetry. by apply Hsess.
    + by rewrite create_chat_message_refused.
  - intros chat Hsess. simpl. unfold db_api.serve, db_api.create_chat.
    destruct (crud.get_chat_by_username db (schemas.username chat)
                (schemas.create_session_id chat)) as [c|] eqn:Hc.
    + erewrite bind_Raise; [|by eapply create_chat_conflict]. done.
    + erewrite bind_Return; [|by apply create_chat_new]. simpl.
      pose proof (session_copied_with_chat db (schemas.username chat)
                    (schemas.create_session_id chat) Hok Hinv) as Hinv'.
      apply (session_copied_rows_of _ (next_uuid db)
               (schemas.create_messages chat)) in Hinv'; [done|].
      simpl. intros c' Hc' Hid.
      apply elem_of_app in Hc' as [Hold|Hnew].
      * destruct Hok as (Hfresh & _). rewrite Forall_forall in Hfresh.
        apply Hfresh in Hold. lia.
      * apply list_elem_of_singleton in Hnew. by subst c'.
  - intros cid m row db'. unfold db_api.create_chat_message.
    destruct (decide (cid ∈ chat_id <$> chats db)) as [Hin|Hout].
    + rewrite create_chat_message_ok by done. by intros [= <- _].
    + by rewrite create_chat_message_refused.
Qed.

Lemma C8_session_copied_when_supplied_witness :
  db_ok examples.one_chat_db
  ∧ session_copied examples.one_chat_db
  ∧ session_copied
      (db_api.app
         (http.POST_chats_message 0 (schemas.mkMessageCreate "hi" "user" "S1"))
         examples.one_chat_db).2
  ∧ session_copied examples.two_sessions_db.
Proof.
  assert (db_ok examples.one_chat_db) as Hok by compute_done.
  assert (session_copied examples.one_chat_db) as Hinv by compute_done.
  split; [exact Hok|]. split; [exact Hinv|].
  destruct (C8_session_copied_when_supplied examples.one_chat_db Hok Hinv)
    as (Hmessage & Hchat & _).
  split.
  - apply (Hmessage 0 (schemas.mkMessageCreate "hi" "user" "S1")).
    assert (Forall (λ c, chat_id c = 0 → chat_session_id c = "S1")
              (chats examples.one_chat_db)) as Hsess by compute_done.
    rewrite Forall_forall in Hsess. exact Hsess.
  - apply (Hchat (schemas.mkChatCreate "alice" (examples.seed "S2") "S2")).
    compute_done.
Defined.

(** ** chat-ui/app/main.py *)

Lemma httpx_db_api_step r w response db' :
  db_api.app r (chat_ui.db w) = (response, db') →
  chat_ui.httpx_db_api r w =
    (Return response,
     {| chat_ui.db := db';
        chat_ui.calls := chat_ui.calls w ++ [chat_ui.DbApiCall r] |}).
Proof. intros Hr. unfold chat_ui.httpx_db_api. by rewrite Hr. Qed.

(** The session identifier that the handlers receive is never empty. *)
Lemma get_session_id_nonempty session uuid4_str :
  uuid4_str ≠ "" → (chat_ui.get_session_id session uuid4_str).1 ≠ "".
Proof.
  intros Hfresh. unfold chat_ui.get_session_id.
  destruct (session !! "session_id") as [session_id|]; [|done].
  by case_bool_decide.
Qed.

(** The fetch by username for a username of one safe path segment: it
    reaches the by-username route with the username as written. *)
Lemma httpx_get_chat_by_username_safe other u s w :
  http.path_safe u = true →
  chat_ui.httpx_get_chat_by_username other u s w =
    (Return (db_api.app
               (http.GET_chats_username u (http.X_Session_ID s))
               (chat_ui.db w)).1,
     {| chat_ui.db := chat_ui.db w;
        chat_ui.calls :=
          chat_ui.calls w
          ++ [chat_ui.DbApiGet ("/chats/username/" +:+ u)
                (http.X_Session_ID s)] |}).
Proof.
  intros Hsafe. unfold chat_ui.httpx_get_chat_by_username.
  unfold http.route_pasted_username. rewrite Hsafe.
  pose proof (app_GET_chats_username_store (chat_ui.db w)
                (http.X_Session_ID s) u) as Hdb.
  destruct (db_api.app _ _) as [response db']. simpl in *. by subst db'.
Qed.

(** A chat of the username under the session exists and the username is
    one safe path segment: the creation is refused and the chat is
    fetched. *)
Lemma create_chat_resumes settings other u s w c :
  http.path_safe u = true → s ≠ "" → db_ok (chat_ui.db w) →
  c ∈ chats (chat_ui.db w) → chat_username c = u → chat_session_id c = s →
  chat_ui.create_chat settings other u s w =
    (Return (chat_ui.RedirectResponse
               (chat_ui.url_path_for_get_chat_page (chat_id c)) 302),
     {| chat_ui.db := chat_ui.db w;
        chat_ui.calls :=
          chat_ui.calls w
          ++ [chat_ui.DbApiCall
                (http.POST_chats (chat_ui.create_chat_body settings u s));
              chat_ui.DbApiGet ("/chats/username/" +:+ u)
                (http.X_Session_ID s)] |}).
Proof.
  intros Hsafe Hs Hok Hc <- <-. destruct Hok as (_ & _ & _ & _ & _ & Hpair).
  pose proof (get_chat_by_username_found _ c Hpair Hc) as Hget.
  unfold chat_ui.create_chat.
  erewrite bind_Return; last first.
  { apply httpx_db_api_step. by eapply app_POST_chats_conflict. }
  cbv beta. erewrite bind_Return; [|reflexivity].
  cbv beta. rewrite bool_decide_true by done.
  erewrite bind_Return; last first.
  { erewrite bind_Return; [|by apply httpx_get_chat_by_username_safe].
    cbn [chat_ui.db]. rewrite app_GET_chats_username by done.
    rewrite Hget. reflexivity. }
  simpl. by rewrite <- app_assoc.
Qed.

(** A chat of the username under the session exists and the pasted
    username matches no route: the creation is refused, the fetch is
    answered 404, and the handler fails on [chat["id"]]. *)
Lemma create_chat_not_found settings other u s w c :
  http.route_pasted_username u = http.Not_found →
  c ∈ chats (chat_ui.db w) → chat_username c = u → chat_session_id c = s →
  chat_ui.create_chat settings other u s w =
    (Raise (KeyError "id"),
     {| chat_ui.db := chat_ui.db w;
        chat_ui.calls :=
          chat_ui.calls w
          ++ [chat_ui.DbApiCall
                (http.POST_chats (chat_ui.create_chat_body settings u s));
              chat_ui.DbApiGet ("/chats/username/" +:+ u)
                (http.X_Session_ID s)] |}).
Proof.
  intros Hroute Hc Hu Hsess.
  assert (∃ c', crud.get_chat_by_username (chat_ui.db w) u s = Some c')
    as [c' Hget].
  { destruct (crud.get_chat_by_username (chat_ui.db w) u s) as [c'|] eqn:Hget;
      [eauto|].
    unfold crud.get_chat_by_username in Hget.
    rewrite first_row_None in Hget. by destruct (Hget c Hc). }
  unfold chat_ui.create_chat.
  erewrite bind_Return; last first.
  { apply httpx_db_api_step. by eapply app_POST_chats_conflict. }
  cbv beta. erewrite bind_Return; [|reflexivity].
  cbv beta. rewrite bool_decide_true by done.
  erewrite bind_Return; last first.
  { erewrite bind_Return; last first.
    { unfold chat_ui.httpx_get_chat_by_username. rewrite Hroute. reflexivity. }
    reflexivity. }
  cbv beta. erewrite bind_Raise; [|reflexivity].
  simpl. by rewrite <- app_assoc.
Qed.

Lemma create_chat_creates settings other u s w :
  db_ok (chat_ui.db w) →
  crud.get_chat_by_username (chat_ui.db w) u s = None →
  chat_ui.create_chat settings other u s w =
    (Return (chat_ui.RedirectResponse
               (chat_ui.url_path_for_get_chat_page (next_uuid (chat_ui.db w)))
               302),
     {| chat_ui.db :=
          (db_api.app (http.POST_chats (chat_ui.create_chat_body settings u s))
             (chat_ui.db w)).2;
        chat_ui.calls :=
          chat_ui.calls w
          ++ [chat_ui.DbApiCall
                (http.POST_chats (chat_ui.create_chat_body settings u s))] |}).
Proof.
  intros Hok Hget. unfold chat_ui.create_chat.
  erewrite bind_Return; last first.
  { apply httpx_db_api_step. by apply app_POST_chats_new. }
  cbv beta. erewrite bind_Return; [|reflexivity].
  cbv beta. rewrite bool_decide_false by done.
  erewrite bind_Return; [|reflexivity].
  rewrite app_POST_chats_new by done. reflexivity.
Qed.

(** The chats of a username and a session in a store that holds one. *)
Lemma one_chat_for_pair db c :
  db_ok db → c ∈ chats db →
  filter (λ c', chat_username c' = chat_username c
                ∧ chat_session_id c' = chat_session_id c) (chats db) = [c].
Proof.
  intros (_ & _ & Hcid & _ & _ & Hpair) Hc.
  apply filter_unique; [by eapply NoDup_fmap_1|done..|].
  intros y Hy [Hu Hs].
  apply (NoDup_key_inj _ (chats db) _ _ Hpair Hy Hc). simpl. congruence.
Qed.

(** C1 at the username [a/b]: the first create-chat of the UI stores the
    chat, with the username that travelled in the body, and redirects to
    it; the second is refused by the API with 400, its fetch by username
    asks for the path [/chats/username/a/b], which matches no route and is
    answered 404, and the handler raises [KeyError] on [chat["id"]]
    instead of redirecting to the chat.  The store still holds the one
    chat. *)
Theorem C1_create_chat_twice_slash other :
  let first :=
    chat_ui.create_chat chat_ui.default_settings other "a/b" "S1"
      (chat_ui.mkWorld empty_db []) in
  let second :=
    chat_ui.create_chat chat_ui.default_settings other "a/b" "S1" first.2 in
  first.1 = Return (chat_ui.RedirectResponse
                      (chat_ui.url_path_for_get_chat_page 0) 302)
  ∧ chats (chat_ui.db first.2) = [mkChat 0 "a/b" "S1"]
  ∧ second.1 = Raise (KeyError "id")
  ∧ chat_ui.db second.2 = chat_ui.db first.2
  ∧ chat_ui.calls second.2 =
      chat_ui.calls first.2
      ++ [chat_ui.DbApiCall
            (http.POST_chats
               (chat_ui.create_chat_body chat_ui.default_settings "a/b" "S1"));
          chat_ui.DbApiGet "/chats/username/a/b" (http.X_Session_ID "S1")].
Proof.
  intros first second.
  assert (first =
            (Return (chat_ui.RedirectResponse
                       (chat_ui.url_path_for_get_chat_page 0) 302),
             first.2)) as Hfirst by reflexivity.
  assert (chats (chat_ui.db first.2) = [mkChat 0 "a/b" "S1"]) as Hchats
    by reflexivity.
  split; [by rewrite Hfirst|]. split; [exact Hchats|].
  subst second.
  rewrite (create_chat_not_found chat_ui.default_settings other "a/b" "S1"
             first.2 (mkChat 0 "a/b" "S1")); [done|reflexivity| |done..].
  rewrite Hchats. by left.
Qed.

(** X14: for a session identifier (never empty: see [get_session_id])
    and a username that is one word of letters, digits, [-] and [_], the
    UI's create-chat called twice redirects both times to the same chat
    identifier; afterwards the store holds exactly one chat row for the
    pair, the one redirected to; the second call leaves the store as it
    is, its creation request being refused and followed by the fetch by
    username under the session. *)
Theorem X14_create_chat_twice settings other username session_id w :
  http.path_safe username = true →
  session_id ≠ "" → db_ok (chat_ui.db w) →
  ∃ cid w1 w2,
    chat_ui.create_chat settings other username session_id w =
      (Return (chat_ui.RedirectResponse
                 (chat_ui.url_path_for_get_chat_page cid) 302), w1)
    ∧ chat_ui.create_chat settings other username session_id w1 =
        (Return (chat_ui.RedirectResponse
                   (chat_ui.url_path_for_get_chat_page cid) 302), w2)
    ∧ filter (λ c, chat_username c = username
                   ∧ chat_session_id c = session_id)
        (chats (chat_ui.db w2))
      = [mkChat cid username session_id]
    ∧ chat_ui.db w2 = chat_ui.db w1
    ∧ chat_ui.calls w2 =
        chat_ui.calls w1
        ++ [chat_ui.DbApiCall
              (http.POST_chats
                 (chat_ui.create_chat_body settings username session_id));
            chat_ui.DbApiGet ("/chats/username/" +:+ username)
              (http.X_Session_ID session_id)].
Proof.
  intros Hsafe Hs Hok.
  assert (∀ w' c, db_ok (chat_ui.db w') → c ∈ chats (chat_ui.db w') →
            chat_username c = username → chat_session_id c = session_id →
            filter (λ c', chat_username c' = username
                          ∧ chat_session_id c' = session_id)
              (chats (chat_ui.db w'))
            = [mkChat (chat_id c) username session_id]) as Hone.
  { intros w' [i u s] Hok' Hc Hu Hsess. simpl in *. subst u s.
    apply (one_chat_for_pair _ _ Hok' Hc). }
  destruct (crud.get_chat_by_username (chat_ui.db w) username session_id)
    as [c|] eqn:Hget.
  - apply get_chat_by_username_Some in Hget as (Hc & Hu & Hsess).
    pose proof (create_chat_resumes settings other username session_id w c
                  Hsafe Hs Hok Hc Hu Hsess) as Hfirst.
    eexists (chat_id c), _, _. split; [exact Hfirst|].
    split; [by apply create_chat_resumes|]. simpl.
    split; [by apply (Hone w)|]. done.
  - pose proof (create_chat_creates settings other username session_id w
                  Hok Hget) as Hfirst.
    set (row := mkChat (next_uuid (chat_ui.db w)) username session_id).
    assert (row ∈ chats
              (db_api.app
                 (http.POST_chats
                    (chat_ui.create_chat_body settings username session_id))
                 (chat_ui.db w)).2) as Hrow.
    { rewrite app_POST_chats_new by done.
      simpl. apply elem_of_app. right. by left. }
    set (w1 := {| chat_ui.db := _; chat_ui.calls := _ |}) in Hfirst.
    assert (db_ok (chat_ui.db w1)) as Hok1 by by apply db_ok_app.
    eexists (next_uuid (chat_ui.db w)), w1, _. split; [exact Hfirst|].
    split; [by apply (create_chat_resumes settings other _ _ w1 row)|]. simpl.
    split; [by apply (Hone w1 row)|]. done.
Qed.

Lemma X14_create_chat_twice_witness :
  http.path_safe "alice" = true ∧ "S1" ≠ "" ∧ db_ok empty_db
  ∧ ∃ cid w1 w2,
      chat_ui.create_chat chat_ui.default_settings
        (λ _ _ _, Raise JSONDecodeError) "alice" "S1"
        (chat_ui.mkWorld empty_db []) =
        (Return (chat_ui.RedirectResponse
                   (chat_ui.url_path_for_get_chat_page cid) 302), w1)
      ∧ chat_ui.create_chat chat_ui.default_settings
          (λ _ _ _, Raise JSONDecodeError) "alice" "S1" w1 =
          (Return (chat_ui.RedirectResponse
                     (chat_ui.url_path_for_get_chat_page cid) 302), w2)
      ∧ filter (λ c, chat_username c = "alice" ∧ chat_session_id c = "S1")
          (chats (chat_ui.db w2))
        = [mkChat cid "alice" "S1"].
Proof.
  assert (http.path_safe "alice" = true) as Hsafe by reflexivity.
  assert ("S1" ≠ "") as Hs by discriminate.
  assert (db_ok empty_db) as Hok by compute_done.
  split; [exact Hsafe|]. split; [exact Hs|]. split; [exact Hok|].
  destruct (X14_create_chat_twice chat_ui.default_settings
              (λ _ _ _, Raise JSONDecodeError) "alice" "S1"
              (chat_ui.mkWorld empty_db []) Hsafe Hs Hok)
    as (cid & w1 & w2 & H1 & H2 & H3 & _).
  exists cid, w1, w2. split; [exact H1|]. split; [exact H2|exact H3].
Defined.

Lemma completion_block lm chat w :
  try_except
    (msgs ← chat_ui.lift
              (chat_ui.subscript "messages" schemas.chat_messages chat);
     chat_ui.httpx_lm_api lm msgs 30)
    (λ e, match e with TimeoutException => true | _ => false end)
    (raise (HTTPException 503 chat_ui.timeout_detail)) w =
  match chat with
  | http.JChat c =>
      let w' := {| chat_ui.db := chat_ui.db w;
                   chat_ui.calls :=
                     chat_ui.calls w
                     ++ [chat_ui.LmApiCall (schemas.chat_messages c) 30] |} in
      match lm (schemas.chat_messages c) with
      | chat_ui.TimedOut =>
          (Raise (HTTPException 503 chat_ui.timeout_detail), w')
      | chat_ui.Choices contents => (Return contents, w')
      end
  | http.JDetail _ | http.JMessage _ => (Raise (KeyError "messages"), w)
  end.
Proof.
  unfold try_except, chat_ui.httpx_lm_api, mbind, SE_bind.
  destruct chat as [d|c|m]; simpl; try done.
  by destruct (lm (schemas.chat_messages c)).
Qed.

Lemma create_generation_run settings lm chat_id prompt s db :
  let user_message := schemas.mkMessageCreate prompt (chat_ui.user_role settings) s in
  let row := mkMessage (next_uuid db) prompt (chat_ui.user_role settings) s chat_id in
  let db1 := with_message db row in
  let post := chat_ui.DbApiCall (http.POST_chats_message chat_id user_message) in
  let get := chat_ui.DbApiCall (http.GET_chats_chat_id chat_id (http.X_Session_ID s)) in
  chat_ui.serve (chat_ui.create_generation settings lm chat_id prompt s) db =
    if decide (chat_id ∈ models.chat_id <$> chats db) then
      if decide (s = "") then (Raise (KeyError "messages"), db1, [post; get])
      else
        match crud.get_chat db chat_id s with
        | None => (Raise JSONDecodeError, db1, [post; get])
        | Some c =>
            let msgs := Chat_messages db1 c in
            let call := chat_ui.LmApiCall msgs 30 in
            match lm msgs with
            | chat_ui.TimedOut =>
                (Raise (HTTPException 503 chat_ui.timeout_detail), db1,
                 [post; get; call])
            | chat_ui.Choices [] => (Raise IndexError, db1, [post; get; call])
            | chat_ui.Choices (generation :: _) =>
                let reply :=
                  schemas.mkMessageCreate generation
                    (chat_ui.assistant_role settings) s in
                (Return (chat_ui.RedirectResponse
                           (chat_ui.url_path_for_get_chat_page chat_id) 302),
                 with_message db1
                   (mkMessage (S (next_uuid db)) generation
                      (chat_ui.assistant_role settings) s chat_id),
                 [post; get; call;
                  chat_ui.DbApiCall (http.POST_chats_message chat_id reply)])
            end
        end
    else (Raise JSONDecodeError, db, [post]).
Proof.
  intros user_message row db1 post get.
  unfold chat_ui.serve, chat_ui.create_generation.
  destruct (decide (chat_id ∈ models.chat_id <$> chats db)) as [Hin|Hout].
  2:{ erewrite bind_Return; last first.
      { apply httpx_db_api_step. by apply app_POST_chats_message_refused. }
      cbv beta. erewrite bind_Raise; [|reflexivity]. done. }
  erewrite bind_Return; last first.
  { apply httpx_db_api_step. by apply app_POST_chats_message_ok. }
  cbv beta. erewrite bind_Return; [|reflexivity]. cbv beta.
  cbn [chat_ui.db chat_ui.calls app schemas.content schemas.role schemas.session_id].
  fold user_message row db1 post.
  destruct (decide (s = "")) as [->|Hs].
  { erewrite bind_Return; [|reflexivity]. cbv beta.
    erewrite bind_Return; [|reflexivity]. cbv beta.
    erewrite bind_Raise; [|reflexivity]. done. }
  erewrite bind_Return; last first.
  { apply httpx_db_api_step. by apply app_GET_chats_chat_id. }
  cbv beta. cbn [chat_ui.db chat_ui.calls app]. fold get.
  change (crud.get_chat db1 chat_id s) with (crud.get_chat db chat_id s).
  destruct (crud.get_chat db chat_id s) as [c|] eqn:Hc.
  2:{ erewrite bind_Raise; [|reflexivity]. done. }
  erewrite bind_Return; [|reflexivity]. cbv beta.
  destruct (lm (Chat_messages db1 c)) as [|[|generation rest]] eqn:Hlm.
  - erewrite bind_Raise; last first.
    { rewrite completion_block. unfold schemas.Chat_from_attributes.
      cbn [schemas.chat_messages]. by rewrite Hlm. }
    done.
  - erewrite bind_Return; last first.
    { rewrite completion_block. unfold schemas.Chat_from_attributes.
      cbn [schemas.chat_messages]. by rewrite Hlm. }
    cbv beta. erewrite bind_Raise; [|reflexivity]. done.
  - erewrite bind_Return; last first.
    { rewrite completion_block. unfold schemas.Chat_from_attributes.
      cbn [schemas.chat_messages]. by rewrite Hlm. }
    cbv beta. erewrite bind_Return; [|reflexivity]. cbv beta.
    erewrite bind_Return; last first.
    { apply httpx_db_api_step. by apply app_POST_chats_message_ok. }
    done.
Qed.

(** C3: a generate-reply request whose call to the completion endpoint
    times out fails with status 503 and the text advising to retry; the
    call was made with the bound of 30 seconds and is the last one of the
    request; of the store only the table of messages has changed, by the
    user message appended before the history was fetched. *)
Theorem C3_upstream_timeout
    settings lm chat_id prompt session_id db o db' calls msgs timeout :
  chat_ui.serve
    (chat_ui.create_generation settings lm chat_id prompt session_id) db
    = (o, db', calls) →
  chat_ui.LmApiCall msgs timeout ∈ calls →
  lm msgs = chat_ui.TimedOut →
  o = Raise (HTTPException 503
        "Request to the LM API timed out. I'm using a maximum of 5 LM API replicas to avoid blowing up costs, so perhaps it's busy. Please wait a moment and retry.")
  ∧ timeout = 30
  ∧ chats db' = chats db
  ∧ messages db' =
      messages db
      ++ [mkMessage (next_uuid db) prompt (chat_ui.user_role settings)
            session_id chat_id]
  ∧ calls =
      [chat_ui.DbApiCall
         (http.POST_chats_message chat_id
            (schemas.mkMessageCreate prompt (chat_ui.user_role settings)
               session_id));
       chat_ui.DbApiCall
         (http.GET_chats_chat_id chat_id (http.X_Session_ID session_id));
       chat_ui.LmApiCall msgs 30].
Proof.
  rewrite create_generation_run. cbv zeta. intros Hrun Hcall Htimeout.
  destruct (decide (chat_id ∈ models.chat_id <$> chats db)) as [Hin|Hout];
    [|by injection Hrun as <- <- <-; decompose_list_elem_of].
  destruct (decide (session_id = "")) as [Hempty|Hs];
    [by injection Hrun as <- <- <-; decompose_list_elem_of|].
  destruct (crud.get_chat db chat_id session_id) as [c|];
    [|by injection Hrun as <- <- <-; decompose_list_elem_of].
  destruct (lm (Chat_messages _ c)) as [|[|generation rest]] eqn:Hlm;
    injection Hrun as <- <- <-; decompose_list_elem_of;
    simplify_eq; [|congruence..].
  done.
Qed.

Lemma C3_upstream_timeout_witness :
  let lm : list schemas.Message → chat_ui.Completion := λ _, chat_ui.TimedOut in
  let run :=
    chat_ui.serve
      (chat_ui.create_generation chat_ui.default_settings lm 0 "hello" "S1")
      examples.one_chat_db in
  let msgs :=
    messages examples.one_chat_db ++ [mkMessage 3 "hello" "user" "S1" 0] in
  chat_ui.LmApiCall msgs 30 ∈ run.2
  ∧ lm msgs = chat_ui.TimedOut
  ∧ run.1.1 = Raise (HTTPException 503 chat_ui.timeout_detail)
  ∧ messages run.1.2 = msgs.
Proof.
  intros lm run msgs.
  assert (chat_ui.LmApiCall msgs 30 ∈ run.2) as Hcall.
  { apply (list_elem_of_lookup_2 _ 2). vm_compute. reflexivity. }
  split; [exact Hcall|]. split; [reflexivity|].
  destruct (C3_upstream_timeout chat_ui.default_settings lm 0 "hello" "S1"
              examples.one_chat_db run.1.1 run.1.2 run.2 msgs 30
              eq_refl Hcall eq_refl) as (Ho & _ & _ & Hm & _).
  split; [exact Ho|exact Hm].
Defined.

(** The history of a chat after a message was added to it. *)
Lemma Chat_messages_with_message db c row :
  message_owner_id row = chat_id c →
  Chat_messages (with_message db row) c = Chat_messages db c ++ [row].
Proof.
  intros Howner. unfold Chat_messages, with_message; simpl.
  rewrite filter_app. by rewrite (filter_cons_True _ row []).
Qed.

Lemma Chat_messages_with_other_message db c row :
  message_owner_id row ≠ chat_id c →
  Chat_messages (with_message db row) c = Chat_messages db c.
Proof.
  intros Howner. unfold Chat_messages, with_message; simpl.
  rewrite filter_app. rewrite (filter_cons_False _ row []) by done.
  by rewrite filter_nil, app_nil_r.
Qed.

(** C6: a generate-reply request that succeeds has made exactly four
    outbound calls, in this order: the user message with the prompt is
    posted to the chat; the chat is fetched under the session, and its
    history is the earlier history followed by that user message; the
    whole fetched history is sent to the completion endpoint with the
    bound of 30 seconds; an assistant message with the text of the first
    choice is posted to the chat.  The response is the redirect to the
    page of the chat, and the store has gained the two messages. *)
Theorem C6_generate_reply_steps
    settings lm chat_id prompt session_id db response db' calls :
  chat_ui.serve
    (chat_ui.create_generation settings lm chat_id prompt session_id) db
    = (Return response, db', calls) →
  ∃ c generation rest,
    let user_row :=
      mkMessage (next_uuid db) prompt (chat_ui.user_role settings)
        session_id chat_id in
    let assistant_row :=
      mkMessage (S (next_uuid db)) generation
        (chat_ui.assistant_role settings) session_id chat_id in
    let history := Chat_messages db c ++ [user_row] in
    crud.get_chat db chat_id session_id = Some c
    ∧ lm history = chat_ui.Choices (generation :: rest)
    ∧ calls =
        [chat_ui.DbApiCall
           (http.POST_chats_message chat_id
              (schemas.mkMessageCreate prompt (chat_ui.user_role settings)
                 session_id));
         chat_ui.DbApiCall
           (http.GET_chats_chat_id chat_id (http.X_Session_ID session_id));
         chat_ui.LmApiCall history 30;
         chat_ui.DbApiCall
           (http.POST_chats_message chat_id
              (schemas.mkMessageCreate generation
                 (chat_ui.assistant_role settings) session_id))]
    ∧ chats db' = chats db
    ∧ messages db' = messages db ++ [user_row; assistant_row]
    ∧ response =
        chat_ui.RedirectResponse
          (chat_ui.url_path_for_get_chat_page chat_id) 302.
Proof.
  rewrite create_generation_run. cbv zeta. intros Hrun.
  destruct (decide (chat_id ∈ models.chat_id <$> chats db)) as [Hin|Hout];
    [|discriminate].
  destruct (decide (session_id = "")) as [Hempty|Hs]; [discriminate|].
  destruct (crud.get_chat db chat_id session_id) as [c|] eqn:Hc;
    [|discriminate].
  apply get_chat_Some in Hc as (_ & Hid & _).
  rewrite Chat_messages_with_message in Hrun by done.
  destruct (lm _) as [|[|generation rest]] eqn:Hlm; try discriminate.
  injection Hrun as <- <- <-.
  exists c, generation, rest. simpl.
  repeat split; [done|]. by rewrite <- app_assoc.
Qed.

Lemma C6_generate_reply_steps_witness :
  let lm : list schemas.Message → chat_ui.Completion :=
    λ _, chat_ui.Choices ["Hello, alice."; "Good day."] in
  let run :=
    chat_ui.serve
      (chat_ui.create_generation chat_ui.default_settings lm 0 "hello" "S1")
      examples.one_chat_db in
  run.1.1 = Return (chat_ui.RedirectResponse
                      (chat_ui.url_path_for_get_chat_page 0) 302)
  ∧ messages run.1.2 =
      messages examples.one_chat_db
      ++ [mkMessage 3 "hello" "user" "S1" 0;
          mkMessage 4 "Hello, alice." "assistant" "S1" 0].
Proof.
  intros lm run.
  assert (run = (Return (chat_ui.RedirectResponse
                           (chat_ui.url_path_for_get_chat_page 0) 302),
                 run.1.2, run.2)) as Hrun by reflexivity.
  split; [reflexivity|].
  destruct (C6_generate_reply_steps chat_ui.default_settings lm 0 "hello" "S1"
              examples.one_chat_db _ _ _ Hrun)
    as (c & generation & rest & _ & Hlm & _ & _ & Hm & _).
  injection Hlm as <- _. exact Hm.
Defined.
(** ** The chat page *)

Lemma prettify_lookup settings username r :
  r ≠ chat_ui.system_role settings →
  chat_ui.prettify settings username !! r =
    if decide (r = chat_ui.assistant_role settings) then Some "JorisBot"
    else if decide (r = chat_ui.user_role settings) then Some username
    else None.
Proof.
  intros Hr. unfold chat_ui.prettify.
  rewrite lookup_insert_ne by done. rewrite !lookup_insert, lookup_empty.
  repeat case_decide; congruence.
Qed.

Lemma comprehension_inr {A B} (f : A → exn + B) (g : A → B) xs :
  Forall (λ x, f x = inr (g x)) xs → comprehension f xs = inr (g <$> xs).
Proof.
  induction 1 as [|x xs Hx _ IH]; simpl; [done|]. by rewrite Hx, IH.
Qed.

Lemma get_chat_page_run settings chat_id s db :
  let get := chat_ui.DbApiCall
               (http.GET_chats_chat_id chat_id (http.X_Session_ID s)) in
  chat_ui.serve (chat_ui.get_chat_page settings chat_id s) db =
    if decide (s = "") then (Raise (KeyError "username"), db, [get])
    else
      match crud.get_chat db chat_id s with
      | None => (Raise JSONDecodeError, db, [get])
      | Some c =>
          match
            comprehension
              (λ msg,
                 match chat_ui.prettify settings (chat_username c)
                       !! message_role msg with
                 | Some display =>
                     inr (chat_ui.mkDisplayMessage (message_content msg)
                            display)
                 | None => inl (KeyError (message_role msg))
                 end)
              (filter (λ msg, message_role msg ≠ chat_ui.system_role settings)
                 (Chat_messages db c))
          with
          | inl e => (Raise e, db, [get])
          | inr messages =>
              (Return (chat_ui.TemplateResponse_chat messages chat_id), db,
               [get])
          end
      end.
Proof.
  intros get. unfold chat_ui.serve, chat_ui.get_chat_page.
  destruct (decide (s = "")) as [->|Hs].
  { erewrite bind_Return; [|reflexivity]. cbv beta.
    erewrite bind_Return; [|reflexivity]. cbv beta.
    erewrite bind_Raise; [|reflexivity]. done. }
  erewrite bind_Return; last first.
  { apply httpx_db_api_step. by apply app_GET_chats_chat_id. }
  cbv beta. cbn [chat_ui.db chat_ui.calls app]. fold get.
  destruct (crud.get_chat db chat_id s) as [c|] eqn:Hc.
  2:{ erewrite bind_Raise; [|reflexivity]. done. }
  erewrite bind_Return; [|reflexivity]. cbv beta.
  erewrite bind_Return; [|reflexivity]. cbv beta.
  erewrite bind_Return; [|reflexivity]. cbv beta.
  cbn [schemas.chat_messages schemas.chat_username
       schemas.Chat_from_attributes].
  destruct (comprehension _ _) as [e|messages] eqn:Hcomp.
  - erewrite bind_Raise; [|reflexivity]. done.
  - erewrite bind_Return; [|reflexivity]. done.
Qed.

(** What the page shows for a message whose role is not the system
    role. *)
Lemma prettify_known settings username r :
  chat_ui.user_role settings ≠ chat_ui.assistant_role settings →
  r ≠ chat_ui.system_role settings → chat_ui.known_role settings r →
  chat_ui.prettify settings username !! r =
    Some (chat_ui.spec_display_name settings username r).
Proof.
  intros Hroles Hr [Hsys|[Huser|Hassistant]]; [done|..];
    rewrite prettify_lookup by done; unfold chat_ui.spec_display_name;
    repeat case_decide; congruence.
Qed.

Lemma prettify_unknown settings username r :
  ¬ chat_ui.known_role settings r →
  chat_ui.prettify settings username !! r = None.
Proof.
  unfold chat_ui.known_role. intros Hr.
  rewrite prettify_lookup by tauto. repeat case_decide; tauto.
Qed.

(** C5: a message added to a chat comes last in the history fetched for
    that chat, the earlier messages keep their order, and the other chats
    keep their histories.  The chat page of a chat whose messages have the
    roles of the configuration shows, in the order of the history, its
    messages other than those of the system role, the user role as the
    username stored with the chat and the assistant role as JorisBot; it
    leaves the store, system messages included, as it is. *)
Theorem C5_history_order_and_rendering settings db :
  (∀ cid m row db',
     db_api.create_chat_message cid m db = (Return row, db') →
     chats db' = chats db
     ∧ (∀ c, chat_id c = cid →
          Chat_messages db' c = Chat_messages db c ++ [row])
     ∧ (∀ c, chat_id c ≠ cid → Chat_messages db' c = Chat_messages db c))
  ∧ (∀ cid s c,
     s ≠ "" →
     chat_ui.user_role settings ≠ chat_ui.assistant_role settings →
     crud.get_chat db cid s = Some c →
     Forall (λ m, chat_ui.known_role settings (message_role m))
       (Chat_messages db c) →
     chat_ui.serve (chat_ui.get_chat_page settings cid s) db =
       (Return (chat_ui.TemplateResponse_chat
                  (chat_ui.spec_rendered settings (chat_username c)
                     (Chat_messages db c)) cid),
        db,
        [chat_ui.DbApiCall
           (http.GET_chats_chat_id cid (http.X_Session_ID s))])).
Proof.
  split.
  - intros cid m row db'. unfold db_api.create_chat_message.
    destruct (decide (cid ∈ chat_id <$> chats db)) as [Hin|Hout].
    + rewrite create_chat_message_ok by done. intros [= <- <-].
      split; [done|]. split; intros c Hc.
      * by apply Chat_messages_with_message.
      * apply Chat_messages_with_other_message. simpl. congruence.
    + by rewrite create_chat_message_refused.
  - intros cid s c Hs Hroles Hc Hknown.
    rewrite get_chat_page_run. cbv zeta.
    rewrite decide_False by done. rewrite Hc.
    erewrite comprehension_inr; [done|].
    apply Forall_forall. intros m Hm.
    apply list_elem_of_filter in Hm as [Hnot Hm].
    rewrite Forall_forall in Hknown.
    by rewrite (prettify_known settings (chat_username c) (message_role m)
                  Hroles Hnot (Hknown m Hm)).
Qed.

Lemma C5_history_order_and_rendering_witness :
  "S1" ≠ ""
  ∧ crud.get_chat examples.conversation_db 0 "S1" = Some examples.alice_S1
  ∧ (chat_ui.serve
       (chat_ui.get_chat_page chat_ui.default_settings 0 "S1")
       examples.conversation_db).1
    = (Return (chat_ui.TemplateResponse_chat
                 [chat_ui.mkDisplayMessage "Hi, how can I help you?" "JorisBot";
                  chat_ui.mkDisplayMessage "hello" "alice";
                  chat_ui.mkDisplayMessage "Hello, alice." "JorisBot"] 0),
       examples.conversation_db)
  ∧ Chat_messages examples.conversation_db examples.alice_S1
    = Chat_messages examples.one_chat_db examples.alice_S1
      ++ [mkMessage 3 "hello" "user" "S1" 0;
          mkMessage 4 "Hello, alice." "assistant" "S1" 0].
Proof.
  assert ("S1" ≠ "") as Hs by discriminate.
  assert (crud.get_chat examples.conversation_db 0 "S1"
          = Some examples.alice_S1) as Hc by reflexivity.
  split; [exact Hs|]. split; [exact Hc|].
  destruct (C5_history_order_and_rendering chat_ui.default_settings
              examples.conversation_db) as [_ Hpage].
  split; [|reflexivity].
  rewrite (Hpage 0 "S1" examples.alice_S1 Hs); [reflexivity|discriminate|exact Hc|].
  unfold chat_ui.known_role. compute_done.
Defined.

Lemma comprehension_inr_iff {A B} (f : A → exn + B) xs :
  (∃ ys, comprehension f xs = inr ys) ↔ Forall (λ x, ∃ y, f x = inr y) xs.
Proof.
  induction xs as [|x xs IH]; simpl.
  - split; [constructor|eauto].
  - rewrite Forall_cons, <- IH. clear IH.
    destruct (f x) as [e|y]; [by split; [intros [? ?]|intros [[? ?] _]]|].
    destruct (comprehension f xs) as [e|ys].
    + by split; [intros [? ?]|intros [_ [? ?]]].
    + split; eauto.
Qed.

Lemma comprehension_inl_inv {A B} (f : A → exn + B) xs e :
  comprehension f xs = inl e → ∃ x, x ∈ xs ∧ f x = inl e.
Proof.
  induction xs as [|x xs IH]; simpl; [done|].
  destruct (f x) as [e'|y] eqn:Hx.
  - intros [= <-]. exists x. split; [left|done].
  - destruct (comprehension f xs) as [e'|ys]; [|done].
    intros [= <-]. destruct IH as (x' & Hin & Hx'); [done|].
    exists x'. split; [by right|done].
Qed.

(** C10: for a chat that is found under the session, the page is
    rendered exactly when every message of the chat has the system, the
    user or the assistant role of the configuration; the create-message
    route stores a message of any other role as it stores the others, and
    after that the page of the chat fails with a [KeyError] instead of
    being rendered. *)
Theorem C10_render_needs_known_roles settings cid s db c :
  s ≠ "" → crud.get_chat db cid s = Some c →
  ((∃ page,
      (chat_ui.serve (chat_ui.get_chat_page settings cid s) db).1.1
      = Return page)
   ↔ Forall (λ m, chat_ui.known_role settings (message_role m))
       (Chat_messages db c))
  ∧ (∀ m, ¬ chat_ui.known_role settings (schemas.role m) →
     let row := mkMessage (next_uuid db) (schemas.content m) (schemas.role m)
                  (schemas.session_id m) cid in
     db_api.app (http.POST_chats_message cid m) db
       = (http.mkResponse 200 (Some (http.JMessage row)), with_message db row)
     ∧ ∃ key,
         (chat_ui.serve (chat_ui.get_chat_page settings cid s)
            (with_message db row)).1.1 = Raise (KeyError key)).
Proof.
  intros Hs Hc.
  assert (∀ db', chats db' = chats db →
            ((∃ page,
                (chat_ui.serve (chat_ui.get_chat_page settings cid s) db').1.1
                = Return page)
             ↔ Forall (λ m, chat_ui.known_role settings (message_role m))
                 (Chat_messages db' c))
            ∧ ∀ e, (chat_ui.serve (chat_ui.get_chat_page settings cid s)
                      db').1.1 = Raise e → ∃ key, e = KeyError key) as Hpage.
  { intros db' Hchats. rewrite get_chat_page_run. cbv zeta.
    rewrite decide_False by done.
    unfold crud.get_chat in *. rewrite Hchats, Hc.
    split.
    - transitivity
        (∃ ys, comprehension
                 (λ msg,
                    match chat_ui.prettify settings (chat_username c)
                          !! message_role msg with
                    | Some display =>
                        inr (chat_ui.mkDisplayMessage (message_content msg)
                               display)
                    | None => inl (KeyError (message_role msg))
                    end)
                 (filter (λ msg,
                            message_role msg ≠ chat_ui.system_role settings)
                    (Chat_messages db' c)) = inr ys).
      { destruct (comprehension _ _) as [e|ys]; simpl.
        - by split; intros [? ?].
        - split; eauto. }
      rewrite comprehension_inr_iff, !Forall_forall.
      split.
      + intros Hall m Hm.
        destruct (decide (message_role m = chat_ui.system_role settings))
          as [Hsys|Hsys]; [by left|].
        destruct (decide (chat_ui.known_role settings (message_role m)))
          as [|Hunknown]; [done|].
        destruct (Hall m) as [y Hy]; [by apply list_elem_of_filter|].
        by rewrite prettify_unknown in Hy.
      + intros Hall m Hm. apply list_elem_of_filter in Hm as [Hsys Hm].
        specialize (Hall m Hm). rewrite prettify_lookup by done.
        destruct Hall as [?|[Hu|Ha]]; [done|..];
          repeat case_decide; try congruence; eauto.
    - intros e. destruct (comprehension _ _) as [e'|ys] eqn:Hcomp; [|done].
      simpl. intros [= <-].
      apply comprehension_inl_inv in Hcomp as (m & _ & Hm).
      destruct (_ !! _); [done|]. injection Hm as <-. eauto. }
  split; [by apply Hpage|].
  intros m Hunknown row.
  apply get_chat_Some in Hc as (Hin & Hid & _).
  assert (cid ∈ chat_id <$> chats db) as Hcid.
  { rewrite <- Hid. by apply list_elem_of_fmap_2. }
  split; [by apply app_POST_chats_message_ok|].
  destruct (Hpage (with_message db row) eq_refl) as [Hiff Hraise].
  destruct (chat_ui.serve _ _).1.1 as [page|e] eqn:Hrun.
  - destruct Hiff as [Hknown _]. specialize (Hknown (ex_intro _ page eq_refl)).
    rewrite Chat_messages_with_message in Hknown by done.
    apply Forall_app in Hknown as [_ Hrow].
    rewrite Forall_singleton in Hrow. destruct (Hunknown Hrow).
  - destruct (Hraise e eq_refl) as [key ->]. eauto.
Qed.

Lemma C10_render_needs_known_roles_witness :
  "S1" ≠ ""
  ∧ crud.get_chat examples.conversation_db 0 "S1" = Some examples.alice_S1
  ∧ (db_api.app
       (http.POST_chats_message 0 (schemas.mkMessageCreate "42" "tool" "S1"))
       examples.conversation_db).2 = examples.tool_db
  ∧ (chat_ui.serve (chat_ui.get_chat_page chat_ui.default_settings 0 "S1")
       examples.tool_db).1.1 = Raise (KeyError "tool")
  ∧ ∃ page,
      (chat_ui.serve (chat_ui.get_chat_page chat_ui.default_settings 0 "S1")
         examples.conversation_db).1.1 = Return page.
Proof.
  assert ("S1" ≠ "") as Hs by discriminate.
  assert (crud.get_chat examples.conversation_db 0 "S1"
          = Some examples.alice_S1) as Hc by reflexivity.
  split; [exact Hs|]. split; [exact Hc|]. split; [reflexivity|].
  destruct (C10_render_needs_known_roles chat_ui.default_settings 0 "S1"
              examples.conversation_db examples.alice_S1 Hs Hc)
    as [Hiff Hpost].
  split.
  - destruct (Hpost (schemas.mkMessageCreate "42" "tool" "S1"))
      as (_ & key & Hkey).
    { unfold chat_ui.known_role. simpl. intros [?|[?|?]]; discriminate. }
    reflexivity.
  - apply Hiff. unfold chat_ui.known_role. apply Forall_forall.
    intros m Hm. simpl.
    assert (Forall (λ m, message_role m = "system" ∨ message_role m = "user"
                         ∨ message_role m = "assistant")
              (Chat_messages examples.conversation_db examples.alice_S1))
      as Hall by compute_done.
    rewrite Forall_forall in Hall. by apply Hall.
Defined.

(** The UI reaches the same store: a generate-reply request for alice's
    chat made under another session fails when the chat is fetched, and
    by then its user message is stored in the chat with that other
    session. *)
Example generate_reply_under_other_session :
  let run :=
    chat_ui.serve
      (chat_ui.create_generation chat_ui.default_settings
         (λ _, chat_ui.Choices ["Hello."]) 0 "hi" "S2")
      examples.one_chat_db in
  run.1.1 = Raise JSONDecodeError
  ∧ messages run.1.2 =
      messages examples.one_chat_db ++ [mkMessage 3 "hi" "user" "S2" 0]
  ∧ ¬ session_copied run.1.2.
Proof. split; [reflexivity|]. split; [reflexivity|]. compute_done. Qed.

(** * Further properties of the two services *)

(** ** The session cookie *)

(** X1: the session identifier handed to the handlers is not empty and is
    the one kept in the session afterwards, so the next request of the
    same browser gets the same identifier and leaves the session alone;
    an identifier that was already there is kept, and no other key of the
    session is touched. *)
Theorem X1_get_session_id_stable session uuid4_str uuid4_str' :
  uuid4_str ≠ "" →
  let sid := (chat_ui.get_session_id session uuid4_str).1 in
  let session' := (chat_ui.get_session_id session uuid4_str).2 in
  sid ≠ ""
  ∧ session' !! "session_id" = Some sid
  ∧ chat_ui.get_session_id session' uuid4_str' = (sid, session')
  ∧ (∀ key, key ≠ "session_id" → session' !! key = session !! key)
  ∧ (∀ old, session !! "session_id" = Some old → old ≠ "" →
       sid = old ∧ session' = session).
Proof.
  intros Hfresh.
  assert (∀ u, u ≠ "" →
            chat_ui.get_session_id (<["session_id" := u]> session) uuid4_str'
            = (u, <["session_id" := u]> session)) as Hagain.
  { intros u Hu. unfold chat_ui.get_session_id.
    rewrite lookup_insert_eq. by rewrite bool_decide_false. }
  assert (∀ u key, key ≠ "session_id" →
            <["session_id" := u]> session !! key = session !! key) as Hother.
  { intros u key Hkey. by rewrite lookup_insert_ne. }
  destruct (chat_ui.get_session_id session uuid4_str) as [sid session']
    eqn:Hget.
  unfold chat_ui.get_session_id in Hget. simpl.
  destruct (session !! "session_id") as [old|] eqn:Hold.
  - case_bool_decide as Hempty; injection Hget as <- <-.
    + split; [done|]. split; [apply lookup_insert_eq|].
      split; [by apply Hagain|]. split; [by apply Hother|].
      intros old' [= <-] Hne. done.
    + split; [done|]. split; [done|]. split.
      { unfold chat_ui.get_session_id. rewrite Hold.
        by rewrite bool_decide_false. }
      split; [done|]. by intros old' [= <-] _.
  - injection Hget as <- <-.
    split; [done|]. split; [apply lookup_insert_eq|].
    split; [by apply Hagain|]. split; [by apply Hother|]. done.
Qed.

Lemma X1_get_session_id_stable_witness :
  "3f2c" ≠ ""
  ∧ (chat_ui.get_session_id ∅ "3f2c").1 = "3f2c"
  ∧ chat_ui.get_session_id (chat_ui.get_session_id ∅ "3f2c").2 "9a1b"
    = ("3f2c", (chat_ui.get_session_id ∅ "3f2c").2).
Proof.
  assert ("3f2c" ≠ "") as Hfresh by discriminate.
  split; [exact Hfresh|]. split; [reflexivity|].
  destruct (X1_get_session_id_stable ∅ "3f2c" "9a1b" Hfresh)
    as (_ & _ & Hagain & _).
  exact Hagain.
Defined.

(** ** The store under requests *)

(** X2: in every store reached from the empty one by requests to the
    API, chat identifiers and message identifiers are not repeated, every
    message is owned by a chat of the store, and no two chat rows have the
    same username and session. *)
Theorem X2_reachable_constraints db :
  reachable db →
  NoDup (chat_id <$> chats db)
  ∧ NoDup (message_id <$> messages db)
  ∧ (∀ m, m ∈ messages db →
       ∃ c, c ∈ chats db ∧ chat_id c = message_owner_id m)
  ∧ (∀ c1 c2, c1 ∈ chats db → c2 ∈ chats db →
       chat_username c1 = chat_username c2 →
       chat_session_id c1 = chat_session_id c2 → c1 = c2).
Proof.
  intros Hreach.
  destruct (reachable_db_ok db Hreach) as (_ & _ & Hcid & Hmid & Hfk & Hpair).
  split; [done|]. split; [done|]. split.
  - intros m Hm. rewrite Forall_forall in Hfk. specialize (Hfk m Hm).
    apply list_elem_of_fmap in Hfk as (c & Hid & Hc). eauto.
  - intros c1 c2 Hc1 Hc2 Hu Hs.
    apply (NoDup_key_inj _ (chats db) _ _ Hpair Hc1 Hc2). simpl. congruence.
Qed.

Lemma X2_reachable_constraints_witness :
  reachable examples.two_sessions_db
  ∧ NoDup (chat_id <$> chats examples.two_sessions_db)
  ∧ NoDup (message_id <$> messages examples.two_sessions_db).
Proof.
  assert (reachable examples.two_sessions_db) as Hreach.
  { apply reachable_request, reachable_request, reachable_empty. }
  split; [exact Hreach|].
  destruct (X2_reachable_constraints _ Hreach) as (Hc & Hm & _).
  split; [exact Hc|exact Hm].
Defined.

(** What a request does to the two tables: rows are added at the end. *)
Lemma app_appends r db :
  ∃ cs ms,
    chats (db_api.app r db).2 = chats db ++ cs
    ∧ messages (db_api.app r db).2 = messages db ++ ms.
Proof.
  destruct r as [chat|cid hs|u hs|cid m];
    [| exists [], []; by rewrite app_GET_chats_chat_id_store, !app_nil_r
     | exists [], []; by rewrite app_GET_chats_username_store, !app_nil_r |];
    simpl; unfold db_api.serve.
  - unfold db_api.create_chat.
    destruct (crud.get_chat_by_username db (schemas.username chat)
                (schemas.create_session_id chat)) as [c|] eqn:Hc.
    + erewrite bind_Raise; [|by eapply create_chat_conflict].
      exists [], []. by rewrite !app_nil_r.
    + erewrite bind_Return; [|by apply create_chat_new]. simpl. eauto.
  - unfold db_api.create_chat_message.
    destruct (decide (cid ∈ chat_id <$> chats db)) as [Hin|Hout].
    + rewrite create_chat_message_ok by done. simpl.
      exists [], [mkMessage (next_uuid db) (schemas.content m)
                    (schemas.role m) (schemas.session_id m) cid].
      by rewrite app_nil_r.
    + rewrite create_chat_message_refused by done.
      exists [], []. by rewrite !app_nil_r.
Qed.

(** X3: no request removes, changes or reorders a row: after any request
    the two tables begin with the rows they had, the history of every
    chat begins with the history it had, and a chat that was found by its
    identifier or by its username under a session is found again, the
    same row. *)
Theorem X3_append_only r db :
  chats db `prefix_of` chats (db_api.app r db).2
  ∧ messages db `prefix_of` messages (db_api.app r db).2
  ∧ (∀ c, Chat_messages db c `prefix_of` Chat_messages (db_api.app r db).2 c)
  ∧ (∀ cid s c, crud.get_chat db cid s = Some c →
       crud.get_chat (db_api.app r db).2 cid s = Some c)
  ∧ (∀ u s c, crud.get_chat_by_username db u s = Some c →
       crud.get_chat_by_username (db_api.app r db).2 u s = Some c).
Proof.
  destruct (app_appends r db) as (cs & ms & Hcs & Hms).
  split; [rewrite Hcs; by eexists|]. split; [rewrite Hms; by eexists|].
  split; [|split].
  - intros c. unfold Chat_messages. rewrite Hms, filter_app. by eexists.
  - intros cid s c Hc. unfold crud.get_chat in *.
    rewrite Hcs, filter_app, head_app. by rewrite Hc.
  - intros u s c Hc. unfold crud.get_chat_by_username in *.
    rewrite Hcs, filter_app, head_app. by rewrite Hc.
Qed.

(** X4: the two GET routes leave the store as it is, whatever the headers;
    so does the chat page of the UI, which makes one call, the fetch by
    identifier under the session. *)
Theorem X4_reads_change_nothing db :
  (∀ headers cid,
     (db_api.app (http.GET_chats_chat_id cid headers) db).2 = db)
  ∧ (∀ headers u,
     (db_api.app (http.GET_chats_username u headers) db).2 = db)
  ∧ (∀ settings cid s,
     (chat_ui.serve (chat_ui.get_chat_page settings cid s) db).1.2 = db
     ∧ (chat_ui.serve (chat_ui.get_chat_page settings cid s) db).2
       = [chat_ui.DbApiCall
            (http.GET_chats_chat_id cid (http.X_Session_ID s))]).
Proof.
  split; [|split].
  - intros headers cid. apply app_GET_chats_chat_id_store.
  - intros headers u. apply app_GET_chats_username_store.
  - intros settings cid s. rewrite get_chat_page_run. cbv zeta.
    destruct (decide (s = "")); [done|].
    destruct (crud.get_chat db cid s); [|done].
    by destruct (comprehension _ _).
Qed.

(** X5: an [X-Session-ID] header with the empty string counts as no
    header: both GET routes answer 400.  A chat stored with the empty
    session is therefore returned by neither route, whatever the headers
    of the request. *)
Theorem X5_empty_token db :
  (∀ headers, headers !! "X-Session-ID" = Some "" →
     (∀ cid,
        db_api.app (http.GET_chats_chat_id cid headers) db =
          (http.mkResponse 400
             (Some (http.JDetail "Session ID is required")), db))
     ∧ (∀ u,
        db_api.app (http.GET_chats_username u headers) db =
          (http.mkResponse 400
             (Some (http.JDetail "Session ID is required")), db)))
  ∧ (∀ headers cid chat,
     (db_api.get_chat_by_id headers cid db).1 = Return (Some chat) →
     schemas.chat_session_id chat ≠ "")
  ∧ (∀ headers u chat,
     (db_api.get_chat_by_username headers u db).1 = Return (Some chat) →
     schemas.chat_session_id chat ≠ "").
Proof.
  split; [|split].
  - intros headers Hh. split.
    + intros cid. rewrite app_GET_chats_chat_id_eq.
      rewrite get_chat_by_id_required; [done|by rewrite Hh].
    + intros u. rewrite app_GET_chats_username_eq.
      rewrite get_chat_by_username_required; [done|by rewrite Hh].
  - intros headers cid chat. unfold db_api.get_chat_by_id.
    destruct (headers !! "X-Session-ID") as [s|]; simpl; [|done].
    case_bool_decide as Hs; [done|]. simpl.
    destruct (crud.get_chat db cid s) as [c|] eqn:Hc; [|done].
    apply get_chat_Some in Hc as (_ & _ & Hsess).
    simpl. intros [= <-]. simpl. congruence.
  - intros headers u chat. unfold db_api.get_chat_by_username.
    destruct (headers !! "X-Session-ID") as [s|]; simpl; [|done].
    case_bool_decide as Hs; [done|]. simpl.
    destruct (crud.get_chat_by_username db u s) as [c|] eqn:Hc; [|done].
    apply get_chat_by_username_Some in Hc as (_ & _ & Hsess).
    simpl. intros [= <-]. simpl. congruence.
Qed.

Lemma X5_empty_token_witness :
  http.X_Session_ID "" !! "X-Session-ID" = Some ""
  ∧ db_api.app (http.GET_chats_username "alice" (http.X_Session_ID ""))
      (examples.opened "alice" "" empty_db)
    = (http.mkResponse 400 (Some (http.JDetail "Session ID is required")),
       examples.opened "alice" "" empty_db).
Proof.
  split; [reflexivity|].
  destruct (X5_empty_token (examples.opened "alice" "" empty_db))
    as (Hempty & _).
  destruct (Hempty (http.X_Session_ID "") eq_refl) as [_ Hname].
  apply Hname.
Defined.

(** ** Generate reply: what it does when it does not succeed *)

(** X6: a generate-reply request for an identifier that is no chat of the
    store fails on its first call: nothing is stored and the completion
    endpoint is not called. *)
Theorem X6_generate_reply_unknown_chat settings lm cid prompt s db :
  cid ∉ chat_id <$> chats db →
  (∃ e, (chat_ui.serve
           (chat_ui.create_generation settings lm cid prompt s) db).1.1
        = Raise e)
  ∧ (chat_ui.serve
       (chat_ui.create_generation settings lm cid prompt s) db).1.2 = db
  ∧ (∀ msgs timeout,
       chat_ui.LmApiCall msgs timeout
       ∉ (chat_ui.serve
            (chat_ui.create_generation settings lm cid prompt s) db).2).
Proof.
  intros Hout. rewrite create_generation_run. cbv zeta.
  rewrite decide_False by done. simpl.
  split; [eauto|]. split; [done|].
  intros msgs timeout Hin. by decompose_list_elem_of.
Qed.

Lemma X6_generate_reply_unknown_chat_witness :
  (7 ∉ chat_id <$> chats examples.one_chat_db)
  ∧ (chat_ui.serve
       (chat_ui.create_generation chat_ui.default_settings
          (λ _, chat_ui.Choices ["Hello."]) 7 "hi" "S1")
       examples.one_chat_db).1.2 = examples.one_chat_db.
Proof.
  assert (7 ∉ chat_id <$> chats examples.one_chat_db) as Hout by compute_done.
  split; [exact Hout|].
  destruct (X6_generate_reply_unknown_chat chat_ui.default_settings
              (λ _, chat_ui.Choices ["Hello."]) 7 "hi" "S1"
              examples.one_chat_db Hout) as (_ & Hdb & _).
  exact Hdb.
Defined.

(** X7: whatever its outcome, a generate-reply request leaves the table
    of chats as it is and adds at most two messages, all of them owned by
    the chat of the request and carrying the session of the request; it
    calls the completion endpoint at most once, with the bound of 30
    seconds, and never again after a failure. *)
Theorem X7_generate_reply_effects settings lm cid prompt s db :
  let run :=
    chat_ui.serve (chat_ui.create_generation settings lm cid prompt s) db in
  chats run.1.2 = chats db
  ∧ (∃ added,
       messages run.1.2 = messages db ++ added
       ∧ (length added ≤ 2)%nat
       ∧ Forall (λ m, message_owner_id m = cid ∧ message_session_id m = s)
           added)
  ∧ (∀ i j msgs msgs' t t',
       run.2 !! i = Some (chat_ui.LmApiCall msgs t) →
       run.2 !! j = Some (chat_ui.LmApiCall msgs' t') →
       i = j ∧ t = 30).
Proof.
  intros run. subst run. rewrite create_generation_run. cbv zeta.
  assert (∀ calls : list chat_ui.Call,
            (∀ i msgs t, calls !! i = Some (chat_ui.LmApiCall msgs t) →
                         i = 2 ∧ t = 30) →
            ∀ i j msgs msgs' t t',
              calls !! i = Some (chat_ui.LmApiCall msgs t) →
              calls !! j = Some (chat_ui.LmApiCall msgs' t') →
              i = j ∧ t = 30) as Honce.
  { intros calls Hat i j msgs msgs' t t' Hi Hj.
    destruct (Hat _ _ _ Hi) as [-> ->]. by destruct (Hat _ _ _ Hj) as [-> _]. }
  assert (∀ (a b : chat_ui.Call) rest,
            (∀ r, a ≠ chat_ui.LmApiCall r.1 r.2) →
            (∀ r, b ≠ chat_ui.LmApiCall r.1 r.2) →
            (∀ r, Forall (λ c, c ≠ chat_ui.LmApiCall r.1 r.2) (drop 1 rest)) →
            ∀ i msgs t,
              (a :: b :: rest) !! i = Some (chat_ui.LmApiCall msgs t) →
              rest !! 0 = Some (chat_ui.LmApiCall msgs t) ∧ i = 2) as Hthird.
  { intros a b rest Ha Hb Hrest i msgs t Hi.
    destruct i as [|[|[|i]]]; simpl in Hi.
    - injection Hi as ->. by destruct (Ha (msgs, t)).
    - injection Hi as ->. by destruct (Hb (msgs, t)).
    - done.
    - destruct rest as [|c rest]; [done|]. simpl in *.
      specialize (Hrest (msgs, t)). rewrite drop_0 in Hrest.
      rewrite Forall_forall in Hrest.
      destruct (Hrest (chat_ui.LmApiCall msgs t)); [|done].
      by eapply list_elem_of_lookup_2. }
  destruct (decide (cid ∈ chat_id <$> chats db)) as [Hin|Hout].
  2:{ simpl. split; [done|]. split.
      - exists []. rewrite app_nil_r. repeat split; [simpl; lia|constructor].
      - apply Honce. intros [|i] msgs t Hi; simpl in Hi; [done|].
        by destruct i. }
  assert (∀ o calls,
            (∀ i msgs t, calls !! i = Some (chat_ui.LmApiCall msgs t) →
                         i = 2 ∧ t = 30) →
            let run : outcome chat_ui.UiResponse * Db * list chat_ui.Call :=
              (o, with_message db
                    (mkMessage (next_uuid db) prompt
                       (chat_ui.user_role settings) s cid), calls) in
            chats run.1.2 = chats db
            ∧ (∃ added,
                 messages run.1.2 = messages db ++ added
                 ∧ (length added ≤ 2)%nat
                 ∧ Forall (λ m, message_owner_id m = cid
                                ∧ message_session_id m = s) added)
            ∧ (∀ i j msgs msgs' t t',
                 run.2 !! i = Some (chat_ui.LmApiCall msgs t) →
                 run.2 !! j = Some (chat_ui.LmApiCall msgs' t') →
                 i = j ∧ t = 30)) as Hone.
  { intros o calls Hat. simpl. split; [done|]. split; [|by apply Honce].
    eexists [_]. split; [done|]. split; [simpl; lia|].
    by apply Forall_singleton. }
  assert (∀ i msgs t (a b : http.Request),
            [chat_ui.DbApiCall a; chat_ui.DbApiCall b] !! i
            = Some (chat_ui.LmApiCall msgs t) → i = 2 ∧ t = 30) as Hnone.
  { intros [|[|[|i]]] msgs t a b Hi; simpl in Hi; done. }
  destruct (decide (s = "")) as [Hempty|Hs].
  { apply Hone. intros i msgs t Hi. by eapply Hnone. }
  destruct (crud.get_chat db cid s) as [c|].
  2:{ apply Hone. intros i msgs t Hi. by eapply Hnone. }
  destruct (lm _) as [|[|generation rest]].
  - apply Hone. intros i msgs t Hi.
    apply Hthird in Hi as [Hi ->]; [by injection Hi as _ <-|done..|].
    intros r. simpl. constructor.
  - apply Hone. intros i msgs t Hi.
    apply Hthird in Hi as [Hi ->]; [by injection Hi as _ <-|done..|].
    intros r. simpl. constructor.
  - simpl. split; [done|]. split.
    + eexists [_; _]. rewrite <- app_assoc. split; [done|].
      split; [simpl; lia|]. by repeat constructor.
    + apply Honce. intros i msgs t Hi.
      apply Hthird in Hi as [Hi ->]; [by injection Hi as _ <-|done..|].
      intros r. simpl. by repeat constructor.
Qed.

(** X8: a generate-reply request for a chat of another session fails
    without calling the completion endpoint, but only after its user
    message was stored: the history of the other session's chat ends with
    a message that carries the session of the request. *)
Theorem X8_generate_reply_other_session settings lm prompt s db c :
  db_ok db → c ∈ chats db → chat_session_id c ≠ s →
  let run :=
    chat_ui.serve
      (chat_ui.create_generation settings lm (chat_id c) prompt s) db in
  let row :=
    mkMessage (next_uuid db) prompt (chat_ui.user_role settings) s
      (chat_id c) in
  (∃ e, run.1.1 = Raise e)
  ∧ run.1.2 = with_message db row
  ∧ Chat_messages run.1.2 c = Chat_messages db c ++ [row]
  ∧ (∀ msgs timeout, chat_ui.LmApiCall msgs timeout ∉ run.2).
Proof.
  intros (_ & _ & Hcid & _) Hc Hs run row. subst run.
  rewrite create_generation_run. cbv zeta.
  rewrite decide_True by by apply list_elem_of_fmap_2.
  assert (∀ o (a b : http.Request),
            let run : outcome chat_ui.UiResponse * Db * list chat_ui.Call :=
              (Raise o, with_message db row,
               [chat_ui.DbApiCall a; chat_ui.DbApiCall b]) in
            (∃ e, run.1.1 = Raise e)
            ∧ run.1.2 = with_message db row
            ∧ Chat_messages run.1.2 c = Chat_messages db c ++ [row]
            ∧ (∀ msgs timeout, chat_ui.LmApiCall msgs timeout ∉ run.2))
    as Hfails.
  { intros o a b. simpl. split; [eauto|]. split; [done|].
    split; [by apply Chat_messages_with_message|].
    intros msgs timeout Hin. by decompose_list_elem_of. }
  destruct (decide (s = "")) as [Hempty|Hne]; [apply Hfails|].
  rewrite get_chat_other_session by done. apply Hfails.
Qed.

Lemma X8_generate_reply_other_session_witness :
  db_ok examples.one_chat_db
  ∧ examples.alice_S1 ∈ chats examples.one_chat_db
  ∧ chat_session_id examples.alice_S1 ≠ "S2"
  ∧ Chat_messages
      (chat_ui.serve
         (chat_ui.create_generation chat_ui.default_settings
            (λ _, chat_ui.Choices ["Hello."]) 0 "hi" "S2")
         examples.one_chat_db).1.2
      examples.alice_S1
    = Chat_messages examples.one_chat_db examples.alice_S1
      ++ [mkMessage 3 "hi" "user" "S2" 0].
Proof.
  assert (db_ok examples.one_chat_db) as Hok by compute_done.
  assert (examples.alice_S1 ∈ chats examples.one_chat_db) as Hc
    by compute_done.
  assert (chat_session_id examples.alice_S1 ≠ "S2") as Hs by discriminate.
  split; [exact Hok|]. split; [exact Hc|]. split; [exact Hs|].
  destruct (X8_generate_reply_other_session chat_ui.default_settings
              (λ _, chat_ui.Choices ["Hello."]) "hi" "S2"
              examples.one_chat_db examples.alice_S1 Hok Hc Hs)
    as (_ & _ & Hhistory & _).
  exact Hhistory.
Defined.

(** X9: when the completion endpoint answers with no choice, the
    generate-reply request fails with an [IndexError]; the user message
    stays in the store, no assistant message is added, and the completion
    call was the last call of the request. *)
Theorem X9_generate_reply_no_choice
    settings lm cid prompt s db o db' calls msgs timeout :
  chat_ui.serve (chat_ui.create_generation settings lm cid prompt s) db
    = (o, db', calls) →
  chat_ui.LmApiCall msgs timeout ∈ calls →
  lm msgs = chat_ui.Choices [] →
  o = Raise IndexError
  ∧ chats db' = chats db
  ∧ messages db' =
      messages db
      ++ [mkMessage (next_uuid db) prompt (chat_ui.user_role settings) s cid]
  ∧ calls =
      [chat_ui.DbApiCall
         (http.POST_chats_message cid
            (schemas.mkMessageCreate prompt (chat_ui.user_role settings) s));
       chat_ui.DbApiCall
         (http.GET_chats_chat_id cid (http.X_Session_ID s));
       chat_ui.LmApiCall msgs 30].
Proof.
  rewrite create_generation_run. cbv zeta. intros Hrun Hcall Hnone.
  destruct (decide (cid ∈ chat_id <$> chats db)) as [Hin|Hout];
    [|by injection Hrun as <- <- <-; decompose_list_elem_of].
  destruct (decide (s = "")) as [Hempty|Hs];
    [by injection Hrun as <- <- <-; decompose_list_elem_of|].
  destruct (crud.get_chat db cid s) as [c|];
    [|by injection Hrun as <- <- <-; decompose_list_elem_of].
  destruct (lm (Chat_messages _ c)) as [|[|generation rest]] eqn:Hlm;
    injection Hrun as <- <- <-; decompose_list_elem_of;
    simplify_eq; [congruence| |congruence].
  done.
Qed.

Lemma X9_generate_reply_no_choice_witness :
  let lm : list schemas.Message → chat_ui.Completion :=
    λ _, chat_ui.Choices [] in
  let run :=
    chat_ui.serve
      (chat_ui.create_generation chat_ui.default_settings lm 0 "hello" "S1")
      examples.one_chat_db in
  let msgs :=
    messages examples.one_chat_db ++ [mkMessage 3 "hello" "user" "S1" 0] in
  chat_ui.LmApiCall msgs 30 ∈ run.2
  ∧ lm msgs = chat_ui.Choices []
  ∧ run.1.1 = Raise IndexError
  ∧ messages run.1.2 = msgs.
Proof.
  intros lm run msgs.
  assert (chat_ui.LmApiCall msgs 30 ∈ run.2) as Hcall.
  { apply (list_elem_of_lookup_2 _ 2). vm_compute. reflexivity. }
  split; [exact Hcall|]. split; [reflexivity|].
  destruct (X9_generate_reply_no_choice chat_ui.default_settings lm 0
              "hello" "S1" examples.one_chat_db run.1.1 run.1.2 run.2 msgs 30
              eq_refl Hcall eq_refl) as (Ho & _ & Hm & _).
  split; [exact Ho|exact Hm].
Defined.

(** ** The chat page and the sessions *)

(** X10: the page of a chat asked for under a session that is not the
    chat's is not rendered: the handler fails, after its one fetch, and
    the store is as before. *)
Theorem X10_page_of_other_session settings s db c :
  db_ok db → c ∈ chats db → chat_session_id c ≠ s →
  ∃ e,
    chat_ui.serve (chat_ui.get_chat_page settings (chat_id c) s) db
    = (Raise e, db,
       [chat_ui.DbApiCall
          (http.GET_chats_chat_id (chat_id c) (http.X_Session_ID s))]).
Proof.
  intros (_ & _ & Hcid & _) Hc Hs. rewrite get_chat_page_run. cbv zeta.
  destruct (decide (s = "")) as [Hempty|Hne]; [eauto|].
  rewrite get_chat_other_session by done. eauto.
Qed.

Lemma X10_page_of_other_session_witness :
  db_ok examples.two_sessions_db
  ∧ examples.alice_S2 ∈ chats examples.two_sessions_db
  ∧ chat_session_id examples.alice_S2 ≠ "S1"
  ∧ ∃ e,
      chat_ui.serve (chat_ui.get_chat_page chat_ui.default_settings 3 "S1")
        examples.two_sessions_db
      = (Raise e, examples.two_sessions_db,
         [chat_ui.DbApiCall
            (http.GET_chats_chat_id 3 (http.X_Session_ID "S1"))]).
Proof.
  assert (db_ok examples.two_sessions_db) as Hok by compute_done.
  assert (examples.alice_S2 ∈ chats examples.two_sessions_db) as Hc
    by compute_done.
  assert (chat_session_id examples.alice_S2 ≠ "S1") as Hs by discriminate.
  split; [exact Hok|]. split; [exact Hc|]. split; [exact Hs|].
  exact (X10_page_of_other_session chat_ui.default_settings "S1"
           examples.two_sessions_db examples.alice_S2 Hok Hc Hs).
Defined.

(** ** Opening a chat, talking, looking at the page *)

(** The store after the UI has opened a chat for a username that had none
    under the session. *)
Lemma created_store settings other u s db :
  db_ok db → crud.get_chat_by_username db u s = None →
  let cid := next_uuid db in
  let seed :=
    [mkMessage (S cid) (chat_ui.system_message settings)
       (chat_ui.system_role settings) s cid;
     mkMessage (S (S cid)) (chat_ui.opening_message settings)
       (chat_ui.assistant_role settings) s cid] in
  let db1 :=
    {| chats := chats db ++ [mkChat cid u s];
       messages := messages db ++ seed;
       next_uuid := S (S (S cid)) |} in
  chat_ui.serve (chat_ui.create_chat settings other u s) db =
    (Return (chat_ui.RedirectResponse
               (chat_ui.url_path_for_get_chat_page cid) 302),
     db1,
     [chat_ui.DbApiCall
        (http.POST_chats (chat_ui.create_chat_body settings u s))])
  ∧ db_ok db1
  ∧ crud.get_chat db1 cid s = Some (mkChat cid u s)
  ∧ Chat_messages db1 (mkChat cid u s) = seed.
Proof.
  intros Hok Hnone cid seed db1.
  assert ((db_api.app
             (http.POST_chats (chat_ui.create_chat_body settings u s)) db).2
          = db1) as Hdb1.
  { rewrite app_POST_chats_new by done. simpl. subst db1 seed cid.
    f_equal. lia. }
  assert (db_ok db1) as Hok1 by (rewrite <- Hdb1; by apply db_ok_app).
  split; [|split; [done|split]].
  - unfold chat_ui.serve. rewrite create_chat_creates by done.
    cbn [chat_ui.db chat_ui.calls app]. by rewrite Hdb1.
  - destruct Hok1 as (_ & _ & Hcid & _).
    apply (get_chat_found db1 (mkChat cid u s) Hcid).
    simpl. apply elem_of_app. right. by left.
  - unfold Chat_messages. simpl. apply Chat_messages_fresh; [done|].
    by repeat constructor.
Qed.

(** X11: when the UI opens a chat for a username that has none under the
    session, the new chat is found under the session with a history of
    two messages, the system message and the opening message, and its
    page shows one message, the opening message under the name of the
    bot. *)
Theorem X11_new_chat_page settings other u s db :
  s ≠ "" → db_ok db → crud.get_chat_by_username db u s = None →
  chat_ui.assistant_role settings ≠ chat_ui.system_role settings →
  let cid := next_uuid db in
  let run := chat_ui.serve (chat_ui.create_chat settings other u s) db in
  run.1.1 = Return (chat_ui.RedirectResponse
                      (chat_ui.url_path_for_get_chat_page cid) 302)
  ∧ crud.get_chat run.1.2 cid s = Some (mkChat cid u s)
  ∧ Chat_messages run.1.2 (mkChat cid u s) =
      [mkMessage (S cid) (chat_ui.system_message settings)
         (chat_ui.system_role settings) s cid;
       mkMessage (S (S cid)) (chat_ui.opening_message settings)
         (chat_ui.assistant_role settings) s cid]
  ∧ (chat_ui.serve (chat_ui.get_chat_page settings cid s) run.1.2).1.1 =
      Return (chat_ui.TemplateResponse_chat
                [chat_ui.mkDisplayMessage (chat_ui.opening_message settings)
                   "JorisBot"] cid).
Proof.
  intros Hs Hok Hnone Hroles cid run. subst run.
  destruct (created_store settings other u s db Hok Hnone)
    as (Hrun & Hok1 & Hget & Hhistory).
  fold cid in Hrun, Hok1, Hget, Hhistory. rewrite Hrun.
  cbn [fst snd]. split; [done|]. split; [done|]. split; [done|].
  rewrite get_chat_page_run. cbv zeta.
  rewrite decide_False by done. rewrite Hget, Hhistory.
  rewrite filter_cons_False by (simpl; intros Hne; by apply Hne).
  rewrite filter_cons_True by done.
  rewrite filter_nil. simpl comprehension.
  rewrite prettify_lookup by done. by rewrite decide_True.
Qed.

Lemma X11_new_chat_page_witness :
  "S1" ≠ "" ∧ db_ok empty_db
  ∧ crud.get_chat_by_username empty_db "alice" "S1" = None
  ∧ chat_ui.assistant_role chat_ui.default_settings
    ≠ chat_ui.system_role chat_ui.default_settings
  ∧ (chat_ui.serve (chat_ui.get_chat_page chat_ui.default_settings 0 "S1")
       (chat_ui.serve
          (chat_ui.create_chat chat_ui.default_settings
             (λ _ _ _, Raise JSONDecodeError) "alice" "S1")
          empty_db).1.2).1.1 =
      Return (chat_ui.TemplateResponse_chat
                [chat_ui.mkDisplayMessage
                   "Hi, how can I help you? I might take about 30 seconds for lengthy answers!"
                   "JorisBot"] 0).
Proof.
  assert ("S1" ≠ "") as Hs by discriminate.
  assert (db_ok empty_db) as Hok by compute_done.
  assert (chat_ui.assistant_role chat_ui.default_settings
          ≠ chat_ui.system_role chat_ui.default_settings) as Hroles
    by discriminate.
  split; [exact Hs|]. split; [exact Hok|]. split; [reflexivity|].
  split; [exact Hroles|].
  destruct (X11_new_chat_page chat_ui.default_settings
              (λ _ _ _, Raise JSONDecodeError) "alice" "S1" empty_db
              Hs Hok eq_refl Hroles) as (_ & _ & _ & Hpage).
  exact Hpage.
Defined.

(** The page of a chat whose messages have the roles of the
    configuration. *)
Lemma get_chat_page_known settings cid s c db :
  s ≠ "" →
  chat_ui.user_role settings ≠ chat_ui.assistant_role settings →
  crud.get_chat db cid s = Some c →
  Forall (λ m, chat_ui.known_role settings (message_role m))
    (Chat_messages db c) →
  chat_ui.serve (chat_ui.get_chat_page settings cid s) db =
    (Return (chat_ui.TemplateResponse_chat
               (chat_ui.spec_rendered settings (chat_username c)
                  (Chat_messages db c)) cid),
     db,
     [chat_ui.DbApiCall (http.GET_chats_chat_id cid (http.X_Session_ID s))]).
Proof.
  intros Hs Hroles Hc Hknown. rewrite get_chat_page_run. cbv zeta.
  rewrite decide_False by done. rewrite Hc.
  erewrite comprehension_inr; [done|].
  apply Forall_forall. intros m Hm.
  apply list_elem_of_filter in Hm as [Hnot Hm].
  rewrite Forall_forall in Hknown.
  by rewrite (prettify_known settings (chat_username c) (message_role m)
                Hroles Hnot (Hknown m Hm)).
Qed.

(** X12: a whole conversation.  The UI opens a chat for a username that
    has none under the session, then a prompt is submitted and the
    completion endpoint answers the history of system message, opening
    message and prompt; with three different role labels the request is
    redirected to the chat, and the page then shows, in this order, the
    opening message and the answer under the name of the bot and between
    them the prompt under the username. *)
Theorem X12_conversation settings other lm u s prompt generation rest db :
  s ≠ "" → db_ok db → crud.get_chat_by_username db u s = None →
  chat_ui.user_role settings ≠ chat_ui.assistant_role settings →
  chat_ui.user_role settings ≠ chat_ui.system_role settings →
  chat_ui.assistant_role settings ≠ chat_ui.system_role settings →
  let cid := next_uuid db in
  let history :=
    [mkMessage (S cid) (chat_ui.system_message settings)
       (chat_ui.system_role settings) s cid;
     mkMessage (S (S cid)) (chat_ui.opening_message settings)
       (chat_ui.assistant_role settings) s cid;
     mkMessage (S (S (S cid))) prompt (chat_ui.user_role settings) s cid] in
  lm history = chat_ui.Choices (generation :: rest) →
  let db1 := (chat_ui.serve (chat_ui.create_chat settings other u s) db).1.2 in
  let generated :=
    chat_ui.serve (chat_ui.create_generation settings lm cid prompt s) db1 in
  generated.1.1 = Return (chat_ui.RedirectResponse
                            (chat_ui.url_path_for_get_chat_page cid) 302)
  ∧ Chat_messages generated.1.2 (mkChat cid u s) =
      history
      ++ [mkMessage (S (S (S (S cid)))) generation
            (chat_ui.assistant_role settings) s cid]
  ∧ (chat_ui.serve (chat_ui.get_chat_page settings cid s) generated.1.2).1.1 =
      Return (chat_ui.TemplateResponse_chat
                [chat_ui.mkDisplayMessage (chat_ui.opening_message settings)
                   "JorisBot";
                 chat_ui.mkDisplayMessage prompt u;
                 chat_ui.mkDisplayMessage generation "JorisBot"] cid).
Proof.
  intros Hs Hok Hnone Hua Hus Has cid history Hlm db1 generated.
  destruct (created_store settings other u s db Hok Hnone)
    as (Hrun & Hok1 & Hget & Hseed).
  fold cid in Hrun, Hok1, Hget, Hseed.
  assert (db1 = {| chats := chats db ++ [mkChat cid u s];
                   messages := messages db ++ take 2 history;
                   next_uuid := S (S (S cid)) |}) as Hdb1.
  { subst db1. by rewrite Hrun. }
  clearbody db1. subst db1. simpl take in *.
  set (db1 := {| chats := _; messages := _; next_uuid := _ |}) in *.
  set (row := mkChat cid u s) in *.
  set (user_row := mkMessage (S (S (S cid))) prompt
                     (chat_ui.user_role settings) s cid).
  set (reply := mkMessage (S (S (S (S cid)))) generation
                  (chat_ui.assistant_role settings) s cid).
  assert (Chat_messages (with_message db1 user_row) row = history) as Hhist.
  { rewrite Chat_messages_with_message by done. by rewrite Hseed. }
  assert (generated =
            (Return (chat_ui.RedirectResponse
                       (chat_ui.url_path_for_get_chat_page cid) 302),
             with_message (with_message db1 user_row) reply,
             generated.2)) as Hgen.
  { subst generated. rewrite create_generation_run. cbv zeta.
    rewrite decide_True; last first.
    { simpl. rewrite fmap_app. apply elem_of_app. right. by left. }
    rewrite decide_False by done. rewrite Hget.
    change (next_uuid db1) with (S (S (S cid))). fold user_row.
    rewrite Hhist, Hlm. done. }
  rewrite Hgen. cbn [fst snd]. split; [done|].
  set (db2 := with_message (with_message db1 user_row) reply).
  assert (Chat_messages db2 row = history ++ [reply]) as Hhist2.
  { subst db2. rewrite Chat_messages_with_message by done. by rewrite Hhist. }
  split; [done|].
  rewrite (get_chat_page_known settings cid s row db2 Hs Hua Hget).
  - rewrite Hhist2. cbn [fst snd]. do 2 f_equal.
    unfold chat_ui.spec_rendered. subst history. simpl app.
    rewrite filter_cons_False by (simpl; intros Hne; by apply Hne).
    rewrite !filter_cons_True by (simpl; congruence).
    rewrite filter_nil. simpl. unfold chat_ui.spec_display_name.
    rewrite (decide_False (P := chat_ui.assistant_role settings
                                = chat_ui.user_role settings)) by congruence.
    by rewrite !decide_True.
  - rewrite Hhist2. unfold chat_ui.known_role.
    repeat constructor; simpl; tauto.
Qed.

Lemma X12_conversation_witness :
  let lm : list schemas.Message → chat_ui.Completion :=
    λ _, chat_ui.Choices ["Hello, alice."] in
  let db1 :=
    (chat_ui.serve
       (chat_ui.create_chat chat_ui.default_settings
             (λ _ _ _, Raise JSONDecodeError) "alice" "S1")
       empty_db).1.2 in
  let generated :=
    chat_ui.serve
      (chat_ui.create_generation chat_ui.default_settings lm 0 "hello" "S1")
      db1 in
  "S1" ≠ "" ∧ db_ok empty_db
  ∧ (chat_ui.serve (chat_ui.get_chat_page chat_ui.default_settings 0 "S1")
       generated.1.2).1.1 =
      Return (chat_ui.TemplateResponse_chat
                [chat_ui.mkDisplayMessage
                   "Hi, how can I help you? I might take about 30 seconds for lengthy answers!"
                   "JorisBot";
                 chat_ui.mkDisplayMessage "hello" "alice";
                 chat_ui.mkDisplayMessage "Hello, alice." "JorisBot"] 0).
Proof.
  intros lm db1 generated.
  assert ("S1" ≠ "") as Hs by discriminate.
  assert (db_ok empty_db) as Hok by compute_done.
  split; [exact Hs|]. split; [exact Hok|].
  destruct (X12_conversation chat_ui.default_settings
              (λ _ _ _, Raise JSONDecodeError) lm "alice" "S1" "hello"
              "Hello, alice." [] empty_db Hs Hok eq_refl
              ltac:(discriminate) ltac:(discriminate) ltac:(discriminate)
              eq_refl) as (_ & _ & Hpage).
  exact Hpage.
Defined.

(** The UI's create-chat under a session: it redirects to a chat of the
    username and the session, which is in the store afterwards together
    with all the chats that were there. *)
Lemma create_chat_opens settings other u s w :
  http.path_safe u = true → s ≠ "" → db_ok (chat_ui.db w) →
  ∃ c w',
    chat_ui.create_chat settings other u s w =
      (Return (chat_ui.RedirectResponse
                 (chat_ui.url_path_for_get_chat_page (chat_id c)) 302), w')
    ∧ chat_username c = u ∧ chat_session_id c = s
    ∧ c ∈ chats (chat_ui.db w')
    ∧ db_ok (chat_ui.db w')
    ∧ (∀ c', c' ∈ chats (chat_ui.db w) → c' ∈ chats (chat_ui.db w')).
Proof.
  intros Hsafe Hs Hok.
  destruct (crud.get_chat_by_username (chat_ui.db w) u s) as [c|] eqn:Hget.
  - apply get_chat_by_username_Some in Hget as (Hc & Hu & Hsess).
    exists c. eexists. split; [by apply create_chat_resumes|]. simpl. eauto.
  - exists (mkChat (next_uuid (chat_ui.db w)) u s). eexists.
    split; [by apply create_chat_creates|]. cbn [chat_ui.db].
    split; [done|]. split; [done|].
    split; [|split; [by apply db_ok_app|]].
    + rewrite app_POST_chats_new by done. simpl.
      apply elem_of_app. right. by left.
    + intros c' Hc'.
      destruct (app_appends
                  (http.POST_chats (chat_ui.create_chat_body settings u s))
                  (chat_ui.db w)) as (cs & ms & Hcs & _).
      rewrite Hcs. apply elem_of_app. by left.
Qed.

(** X13: one username, a word of letters, digits, [-] and [_], opening
    a chat in two sessions gets two chats: the two redirects go to
    different chat identifiers, and afterwards the store holds a chat row
    for each of the two sessions. *)
Theorem X13_one_username_two_sessions settings other u s1 s2 w :
  http.path_safe u = true →
  s1 ≠ "" → s2 ≠ "" → s1 ≠ s2 → db_ok (chat_ui.db w) →
  ∃ cid1 cid2 w1 w2,
    chat_ui.create_chat settings other u s1 w =
      (Return (chat_ui.RedirectResponse
                 (chat_ui.url_path_for_get_chat_page cid1) 302), w1)
    ∧ chat_ui.create_chat settings other u s2 w1 =
        (Return (chat_ui.RedirectResponse
                   (chat_ui.url_path_for_get_chat_page cid2) 302), w2)
    ∧ cid1 ≠ cid2
    ∧ mkChat cid1 u s1 ∈ chats (chat_ui.db w2)
    ∧ mkChat cid2 u s2 ∈ chats (chat_ui.db w2).
Proof.
  intros Hsafe Hs1 Hs2 Hne Hok.
  destruct (create_chat_opens settings other u s1 w Hsafe Hs1 Hok)
    as ([cid1 u1 s1'] & w1 & Hrun1 & Hu1 & Hsess1 & Hc1 & Hok1 & _).
  destruct (create_chat_opens settings other u s2 w1 Hsafe Hs2 Hok1)
    as ([cid2 u2 s2'] & w2 & Hrun2 & Hu2 & Hsess2 & Hc2 & Hok2 & Hkept).
  simpl in *. subst u1 s1' u2 s2'.
  exists cid1, cid2, w1, w2.
  split; [done|]. split; [done|].
  split; [|split; [by apply Hkept|done]].
  intros <-. destruct Hok2 as (_ & _ & Hcid & _).
  apply Hkept in Hc1.
  pose proof (NoDup_key_inj chat_id _ _ _ Hcid Hc1 Hc2 eq_refl) as Heq.
  by injection Heq.
Qed.

Lemma X13_one_username_two_sessions_witness :
  http.path_safe "alice" = true
  ∧ "S1" ≠ "" ∧ "S2" ≠ "" ∧ "S1" ≠ "S2" ∧ db_ok empty_db
  ∧ ∃ cid1 cid2 w1 w2,
      chat_ui.create_chat chat_ui.default_settings
        (λ _ _ _, Raise JSONDecodeError) "alice" "S1"
        (chat_ui.mkWorld empty_db []) =
        (Return (chat_ui.RedirectResponse
                   (chat_ui.url_path_for_get_chat_page cid1) 302), w1)
      ∧ chat_ui.create_chat chat_ui.default_settings
          (λ _ _ _, Raise JSONDecodeError) "alice" "S2" w1 =
          (Return (chat_ui.RedirectResponse
                     (chat_ui.url_path_for_get_chat_page cid2) 302), w2)
      ∧ cid1 ≠ cid2.
Proof.
  assert ("S1" ≠ "") as Hs1 by discriminate.
  assert ("S2" ≠ "") as Hs2 by discriminate.
  assert ("S1" ≠ "S2") as Hne by discriminate.
  assert (db_ok empty_db) as Hok by compute_done.
  assert (http.path_safe "alice" = true) as Hsafe by reflexivity.
  split; [exact Hsafe|].
  split; [exact Hs1|]. split; [exact Hs2|]. split; [exact Hne|].
  split; [exact Hok|].
  destruct (X13_one_username_two_sessions chat_ui.default_settings
              (λ _ _ _, Raise JSONDecodeError) "alice"
              "S1" "S2" (chat_ui.mkWorld empty_db []) Hsafe Hs1 Hs2 Hne Hok)
    as (cid1 & cid2 & w1 & w2 & H1 & H2 & Hdiff & _).
  exists cid1, cid2, w1, w2. split; [exact H1|]. split; [exact H2|exact Hdiff].
Defined.

(** X15: a chat whose username is made of two or more words of letters,
    digits, [-] and [_] separated by [/] can be created but not resumed:
    once it is in the store, the UI's create-chat for the username and
    the session is refused by the API, its fetch by username asks for a
    path that matches no route, and the handler raises [KeyError] on
    [chat["id"]]; the store is left as it is. *)
Theorem X15_slash_username_not_resumed settings other u s w c :
  http.route_pasted_username u = http.Not_found →
  c ∈ chats (chat_ui.db w) → chat_username c = u → chat_session_id c = s →
  chat_ui.create_chat settings other u s w =
    (Raise (KeyError "id"),
     {| chat_ui.db := chat_ui.db w;
        chat_ui.calls :=
          chat_ui.calls w
          ++ [chat_ui.DbApiCall
                (http.POST_chats (chat_ui.create_chat_body settings u s));
              chat_ui.DbApiGet ("/chats/username/" +:+ u)
                (http.X_Session_ID s)] |}).
Proof. apply create_chat_not_found. Qed.

Lemma X15_slash_username_not_resumed_witness :
  http.route_pasted_username "team/alice" = http.Not_found
  ∧ mkChat 0 "team/alice" "S1" ∈ chats (examples.opened "team/alice" "S1" empty_db)
  ∧ (chat_ui.create_chat chat_ui.default_settings
       (λ _ _ _, Raise JSONDecodeError) "team/alice" "S1"
       (chat_ui.mkWorld (examples.opened "team/alice" "S1" empty_db) [])).1
    = Raise (KeyError "id").
Proof.
  assert (http.route_pasted_username "team/alice" = http.Not_found) as Hroute
    by reflexivity.
  assert (mkChat 0 "team/alice" "S1"
          ∈ chats (examples.opened "team/alice" "S1" empty_db)) as Hc
    by compute_done.
  split; [exact Hroute|]. split; [exact Hc|].
  by rewrite (X15_slash_username_not_resumed chat_ui.default_settings
                (λ _ _ _, Raise JSONDecodeError) "team/alice" "S1"
                (chat_ui.mkWorld (examples.opened "team/alice" "S1" empty_db) [])
                (mkChat 0 "team/alice" "S1") Hroute Hc eq_refl eq_refl).
Defined.
